(** * data_cleaning.py: a shallow embedding of the sales cleaning stages

    The four stages of [src/data_cleaning.py] ([clean_column_names],
    [strip_whitespace_from_strings], [handle_missing_values],
    [remove_invalid_rows]) are written over a model of the pandas
    objects they manipulate:

    - a Python [str] is a [string] whose characters are the code points
      0..255 (the Latin-1 range of Unicode), with [str.strip],
      [str.lower] and [str.replace] as CPython defines them there;
    - a [DataFrame] has column labels (a list: labels may repeat), an
      integer row index and one typed array per column, of dtype int64,
      float64 (IEEE 754 binary64, NaN marking a missing value), object
      (Python objects: [str] values, numbers of type [int], [float] and
      [bool], with [None] / NaN as missing markers) or string (pandas'
      StringDtype, [pd.NA] as missing marker).  The
      semantics are those of pandas 1.x / 2.x, where
      [select_dtypes(include=["object"])] selects the object columns
      only;
    - DataFrames live in a store of objects addressed by references; a
      stage receives a reference and returns one, so that [df.copy()],
      [df.columns = ...] and [df[col] = ...] are an allocation and two
      in-place updates, and exceptions are an outcome of the run. *)

From Stdlib Require Import String Ascii List ZArith Bool Arith Lia.
From Stdlib Require Import Floats.SpecFloat.
From Stdlib Require Import DecimalString.
Import ListNotations.

Set Implicit Arguments.

Local Open Scope string_scope.
Local Open Scope list_scope.

(** ** Python strings *)

Module PyStr.

(** [str.isspace] on one character: the code points U+0009..U+000D,
    U+001C..U+0020, U+0085 and U+00A0. *)
Definition isspace (c : ascii) : bool :=
  let n := nat_of_ascii c in
  (((9 <=? n) && (n <=? 13)) || ((28 <=? n) && (n <=? 32))
   || (n =? 133) || (n =? 160))%nat.

(** [str.lower] on one character: A-Z, and the Latin-1 capitals
    U+00C0..U+00DE except the multiplication sign U+00D7, move up by 32. *)
Definition lower_char (c : ascii) : ascii :=
  let n := nat_of_ascii c in
  if (((65 <=? n) && (n <=? 90))
      || ((192 <=? n) && (n <=? 222) && negb (n =? 215)))%nat
  then ascii_of_nat (n + 32) else c.

Fixpoint lower (s : string) : string :=
  match s with
  | EmptyString => EmptyString
  | String c s' => String (lower_char c) (lower s')
  end.

Fixpoint lstrip (s : string) : string :=
  match s with
  | EmptyString => EmptyString
  | String c s' => if isspace c then lstrip s' else s
  end.

Fixpoint rstrip (s : string) : string :=
  match s with
  | EmptyString => EmptyString
  | String c s' =>
      match rstrip s' with
      | EmptyString => if isspace c then EmptyString else String c EmptyString
      | r => String c r
      end
  end.

(** [s.strip()]: whitespace removed at both ends. *)
Definition strip (s : string) : string := rstrip (lstrip s).

Definition replace_in_char (old new c : ascii) : ascii :=
  if Ascii.eqb c old then new else c.

(** [s.replace(old, new)] for one-character [old] and [new]: every
    occurrence is replaced. *)
Fixpoint replace (old new : ascii) (s : string) : string :=
  match s with
  | EmptyString => EmptyString
  | String c s' => String (replace_in_char old new c) (replace old new s')
  end.

(** The last character of a string, if any. *)
Fixpoint last_char (s : string) : option ascii :=
  match s with
  | EmptyString => None
  | String c EmptyString => Some c
  | String _ s' => last_char s'
  end.

Definition first_char (s : string) : option ascii :=
  match s with
  | EmptyString => None
  | String c _ => Some c
  end.

(** A string is trimmed when neither end is a whitespace character. *)
Definition no_space_at (o : option ascii) : Prop :=
  match o with
  | None => True
  | Some c => isspace c = false
  end.

Definition trimmed (s : string) : Prop :=
  no_space_at (first_char s) /\ no_space_at (last_char s).

End PyStr.

(** ** Python numbers as text *)

Module PyNum.

(** [str] of a Python [int]. *)
Definition int_str (z : Z) : string := NilZero.string_of_int (Z.to_int z).

Definition bool_str (b : bool) : string := if b then "True" else "False".

Local Open Scope Z_scope.

(** The binary64 form of [m * 2^e]: a mantissa of 53 bits, or the least
    exponent. *)
Definition normalize (m e : Z) : Z * Z :=
  let bits := Z.log2 m + 1 in
  if (bits <? 53) && (-1074 <? e)
  then let d := Z.min (53 - bits) (e + 1074) in (Z.shiftl m d, e - d)
  else (m, e).

(** The decimal [D * 10^k] nearest to [mid / den] among those with the
    digits of [D] at exponent [k] that read back as the float, whose
    rounding interval is from [lo / den] to [hi / den] (closed when
    [closed]); of two at the same distance, the even one. *)
Definition candidate (lo mid hi den : Z) (closed : bool) (k : Z) : option Z :=
  let a := if 0 <=? k then 10 ^ k else 1 in
  let b := if 0 <=? k then 1 else 10 ^ (- k) in
  let below := (mid * b) / (den * a) in
  let above := below + 1 in
  let inside D :=
    let c := D * a * den in
    (0 <? D)
    && (if closed then (lo * b <=? c) && (c <=? hi * b)
        else (lo * b <? c) && (c <? hi * b)) in
  let dist D := Z.abs (D * a * den - mid * b) in
  match inside below, inside above with
  | true, true =>
      if dist below <? dist above then Some below
      else if dist above <? dist below then Some above
      else Some (if Z.even below then below else above)
  | true, false => Some below
  | false, true => Some above
  | false, false => None
  end.

Fixpoint search (fuel : nat) (lo mid hi den : Z) (closed : bool) (t n : Z)
  : Z * Z :=
  match fuel with
  | O => (0, 0)
  | S fuel' =>
      let k := t - n + 1 in
      match candidate lo mid hi den closed k with
      | Some D => (D, k)
      | None => search fuel' lo mid hi den closed t (n + 1)
      end
  end.

Fixpoint strip_zeros (fuel : nat) (D k : Z) : Z * Z :=
  match fuel with
  | O => (D, k)
  | S fuel' =>
      if (D mod 10 =? 0) && negb (D =? 0) then strip_zeros fuel' (D / 10) (k + 1)
      else (D, k)
  end.

Fixpoint down (fuel : nat) (at_least : Z -> bool) (t : Z) : Z :=
  match fuel with
  | O => t
  | S fuel' => if at_least t then t else down fuel' at_least (t - 1)
  end.

Fixpoint up (fuel : nat) (at_least : Z -> bool) (t : Z) : Z :=
  match fuel with
  | O => t
  | S fuel' => if at_least (t + 1) then up fuel' at_least (t + 1) else t
  end.

(** The shortest digits [D] and the exponent [k] with [D * 10^k] reading
    back as the positive float [m * 2^e], nearest to it. *)
Definition shortest (m0 e0 : Z) : Z * Z :=
  let (m, e) := normalize m0 e0 in
  let E := e - 2 in
  let scale := if 0 <=? E then 2 ^ E else 1 in
  let den := if 0 <=? E then 1 else 2 ^ (- E) in
  let mid := 4 * m * scale in
  let hi := (4 * m + 2) * scale in
  let lo := (if (m =? 2 ^ 52) && (-1074 <? e) then 4 * m - 1 else 4 * m - 2) * scale in
  let at_least t :=
    if 0 <=? t then 10 ^ t * den <=? mid else den <=? mid * 10 ^ (- t) in
  let t0 := ((e + Z.log2 m) * 30103) / 100000 in
  let t := up 5 at_least (down 5 at_least t0) in
  let (D, k) := search 17 lo mid hi den (Z.even m) t 1 in
  strip_zeros 20 D k.

Fixpoint zeros (n : nat) : string :=
  match n with
  | O => ""
  | S n' => String "0" (zeros n')
  end.

(** The digits laid out as [repr] does: exponent form when the decimal
    point would be more than 16 places right or 4 or more places left of
    the first digit. *)
Definition layout (D k : Z) : string :=
  let digits := int_str D in
  let len := String.length digits in
  let nd := Z.of_nat len in
  let decpt := nd + k in
  if (decpt <=? -4) || (16 <? decpt) then
    let ex := decpt - 1 in
    (substring 0%nat 1%nat digits
     ++ (if (1 <? nd)%Z then "." ++ substring 1%nat (Nat.pred len) digits else "")
     ++ "e" ++ (if (ex <? 0)%Z then "-" else "+")
     ++ (if (Z.abs ex <? 10)%Z then "0" else "") ++ int_str (Z.abs ex))%string
  else if decpt <=? 0 then
    ("0." ++ zeros (Z.to_nat (- decpt)) ++ digits)%string
  else if nd <=? decpt then
    (digits ++ zeros (Z.to_nat (decpt - nd)) ++ ".0")%string
  else
    (substring 0%nat (Z.to_nat decpt) digits ++ "."
     ++ substring (Z.to_nat decpt) (Z.to_nat (nd - decpt)) digits)%string.

(** [str] (and [repr]) of a Python [float]. *)
Definition float_str (f : spec_float) : string :=
  match f with
  | S754_nan => "nan"
  | S754_infinity s => if s then "-inf" else "inf"
  | S754_zero s => if s then "-0.0" else "0.0"
  | S754_finite s m e =>
      let (D, k) := shortest (Zpos m) e in
      ((if s then "-" else "") ++ layout D k)%string
  end.

End PyNum.

(** The expression of the list comprehension in [clean_column_names]:
    [col.strip().lower().replace(" ", "_")]. *)
Definition normalize (col : string) : string :=
  PyStr.replace " " "_" (PyStr.lower (PyStr.strip col)).

(** The same transformation in the words of the specification: strip the
    surrounding whitespace, convert to lowercase, then replace each
    interior space character (one that is neither the first nor the last
    character) with an underscore. *)
Fixpoint replace_inner_spaces (s : string) : string :=
  match s with
  | EmptyString => EmptyString
  | String c EmptyString => String c EmptyString
  | String c s' => String (PyStr.replace_in_char " " "_" c) (replace_inner_spaces s')
  end.

Definition replace_interior_spaces (s : string) : string :=
  match s with
  | EmptyString => EmptyString
  | String c s' => String c (replace_inner_spaces s')
  end.

Definition spec_normalize (col : string) : string :=
  replace_interior_spaces (PyStr.lower (PyStr.strip col)).

(** ** pandas values *)

(** An element of an object column: a Python [str]; one of the two
    objects pandas takes for a missing value there, [None] and the
    float NaN; or a number, of type [int], [float] or [bool]. *)
Inductive pyobj :=
| OStr (s : string)
| ONone
| ONaN
| OInt (z : Z)
| OFloat (f : spec_float)
| OBool (b : bool).

(** A column (the values of a Series) with its dtype.  In a string
    column [None] stands for [pd.NA]. *)
Inductive column :=
| Int64 (v : list Z)
| Float64 (v : list spec_float)
| Object (v : list pyobj)
| StringDtype (v : list (option string)).

(** One value of a table, as read at a row and a column. *)
Inductive cell :=
| CInt (z : Z)
| CFloat (f : spec_float)
| CObject (o : pyobj)
| CString (s : option string).

Definition cells (c : column) : list cell :=
  match c with
  | Int64 v => map CInt v
  | Float64 v => map CFloat v
  | Object v => map CObject v
  | StringDtype v => map CString v
  end.

Record DataFrame := mkDataFrame {
  columns : list string;
  index : list Z;
  data : list column
}.

(** The shape invariant of a DataFrame: one array per label, and every
    array as long as the index. *)
Definition well_formed (df : DataFrame) : bool :=
  (length (data df) =? length (columns df))%nat
  && forallb (fun c => (length (cells c) =? length (index df))%nat) (data df).

Definition is_nan (f : spec_float) : bool :=
  match f with
  | S754_nan => true
  | _ => false
  end.

(** [pd.isna] on one object: [None], or a float that is NaN. *)
Definition is_missing (o : pyobj) : bool :=
  match o with
  | ONone | ONaN => true
  | OFloat f => is_nan f
  | _ => false
  end.

(** [pd.isna] on one value. *)
Definition isna (c : cell) : bool :=
  match c with
  | CInt _ => false
  | CFloat f => is_nan f
  | CObject o => is_missing o
  | CString None => true
  | CString (Some _) => false
  end.

(** ** Exceptions, the object store and the monad of a run *)

(** The exceptions of a run: the KeyError of the stages (with its
    message) and of pandas (with a label, or with the labels [dropna]
    does not find), the TypeError of a comparison, the AttributeError of
    a missing attribute.  [NotModelled] is the outcome of a run that
    leaves the part of pandas described here. *)
Inductive exn :=
| KeyError (arg : string)
| KeyErrorLabels (missing : list string)
| TypeError
| AttributeError
| NotModelled.

Inductive outcome (A : Type) :=
| Return (a : A)
| Raise (e : exn).

Arguments Raise {A} e.

Definition ref := nat.
Definition heap := list DataFrame.

Definition M (A : Type) : Type := heap -> outcome A * heap.

Definition ret {A} (a : A) : M A := fun h => (Return a, h).

Definition raise {A} (e : exn) : M A := fun h => (Raise e, h).

Definition bind {A B} (m : M A) (k : A -> M B) : M B :=
  fun h =>
    match m h with
    | (Return a, h') => k a h'
    | (Raise e, h') => (Raise e, h')
    end.

Declare Scope py_scope.
Delimit Scope py_scope with py.

Notation "x <- m ;; k" := (bind m (fun x => k))
  (at level 61, m at next level, right associativity) : py_scope.
Notation "m ;; k" := (bind m (fun _ => k))
  (at level 61, right associativity) : py_scope.

Local Open Scope py_scope.

Definition lift {A} (o : outcome A) : M A := fun h => (o, h).

Definition empty_frame : DataFrame := mkDataFrame [] [] [].

Fixpoint update {A} (n : nat) (x : A) (l : list A) : list A :=
  match l, n with
  | [], _ => []
  | _ :: t, O => x :: t
  | y :: t, S n' => y :: update n' x t
  end.

(** A new object: it takes the next free reference. *)
Definition new (v : DataFrame) : M ref :=
  fun h => (Return (length h), h ++ [v]).

(** The object a reference points to (references held by a program are
    live; a dead one reads as the empty frame). *)
Definition deref (r : ref) : M DataFrame :=
  fun h => (Return (nth r h empty_frame), h).

(** In-place update of the object at [r]. *)
Definition assign (r : ref) (v : DataFrame) : M unit :=
  fun h => (Return tt, update r v h).

Fixpoint for_each {A} (l : list A) (body : A -> M unit) : M unit :=
  match l with
  | [] => ret tt
  | x :: rest => body x ;; for_each rest body
  end.

(** ** The pandas operations the stages call *)

Fixpoint mem (key : string) (labels : list string) : bool :=
  match labels with
  | [] => false
  | l :: ls => String.eqb l key || mem key ls
  end.

(** The columns found under a label, in column order. *)
Fixpoint labelled (key : string) (labels : list string) (cs : list column)
  : list column :=
  match labels, cs with
  | l :: ls, c :: cs' =>
      if String.eqb l key then c :: labelled key ls cs' else labelled key ls cs'
  | _, _ => []
  end.

Fixpoint zip_with {A B C} (f : A -> B -> C) (l : list A) (l' : list B) : list C :=
  match l, l' with
  | a :: t, b :: t' => f a b :: zip_with f t t'
  | _, _ => []
  end.

(** Selection of the positions a boolean array marks. *)
Fixpoint compress {A} (keep : list bool) (l : list A) : list A :=
  match keep, l with
  | b :: ks, x :: xs => if b then x :: compress ks xs else compress ks xs
  | _, _ => []
  end.

Definition take_column (keep : list bool) (c : column) : column :=
  match c with
  | Int64 v => Int64 (compress keep v)
  | Float64 v => Float64 (compress keep v)
  | Object v => Object (compress keep v)
  | StringDtype v => StringDtype (compress keep v)
  end.

(** The rows a boolean array marks: labels kept, index and every column
    restricted to the marked positions, in order. *)
Definition select_rows (keep : list bool) (df : DataFrame) : DataFrame :=
  mkDataFrame (columns df) (compress keep (index df))
              (map (take_column keep) (data df)).

(** [df.copy()]: a new object with the same labels, index and data. *)
Definition DataFrame_copy (df : ref) : M ref :=
  v <- deref df ;; new v.

(** [df.columns]. *)
Definition get_columns (df : ref) : M (list string) :=
  v <- deref df ;; ret (columns v).

(** [df.columns = labels], for a list as long as [df.columns]. *)
Definition set_columns (df : ref) (labels : list string) : M unit :=
  v <- deref df ;; assign df (mkDataFrame labels (index v) (data v)).

Definition is_object (c : column) : bool :=
  match c with
  | Object _ => true
  | _ => false
  end.

Fixpoint object_labels (labels : list string) (cs : list column) : list string :=
  match labels, cs with
  | l :: ls, c :: cs' =>
      if is_object c then l :: object_labels ls cs' else object_labels ls cs'
  | _, _ => []
  end.

(** [df.select_dtypes(include=["object"]).columns.tolist()]. *)
Definition select_dtypes_object_columns (df : ref) : M (list string) :=
  v <- deref df ;; ret (object_labels (columns v) (data v)).

(** What [df[key]] evaluates to for a label: the column when the label
    occurs once, a frame of all the columns under it when it repeats. *)
Inductive selection :=
| SeriesSel (c : column)
| FrameSel (cs : list column).

Definition select (v : DataFrame) (key : string) : outcome selection :=
  if mem key (columns v) then
    match labelled key (columns v) (data v) with
    | [c] => Return (SeriesSel c)
    | cs => Return (FrameSel cs)
    end
  else Raise (KeyError key).

(** [df[key]]. *)
Definition getitem (df : ref) (key : string) : M selection :=
  v <- deref df ;; lift (select v key).

(** One element under [.astype("string")]: a [str] stays, a missing
    value becomes [pd.NA], any other object [x] becomes [str(x)]. *)
Definition to_string_dtype (o : pyobj) : option string :=
  match o with
  | OStr s => Some s
  | ONone | ONaN => None
  | OInt z => Some (PyNum.int_str z)
  | OFloat f => if is_nan f then None else Some (PyNum.float_str f)
  | OBool b => Some (PyNum.bool_str b)
  end.

(** [.astype("string")] followed by the [.str] accessor.  A frame has no
    [.str] attribute.  Of a Series, object and string columns are the
    ones this development converts. *)
Definition astype_string_str (sel : selection) : outcome (list (option string)) :=
  match sel with
  | FrameSel _ => Raise AttributeError
  | SeriesSel (Object v) => Return (map to_string_dtype v)
  | SeriesSel (StringDtype v) => Return v
  | SeriesSel _ => Raise NotModelled
  end.

(** [.str.strip()] on a string array: [pd.NA] stays. *)
Definition str_strip (v : list (option string)) : column :=
  StringDtype (map (option_map PyStr.strip) v).

Fixpoint replace_labelled (key : string) (c : column) (labels : list string)
  (cs : list column) : list column :=
  match labels, cs with
  | l :: ls, c' :: cs' =>
      (if String.eqb l key then c else c') :: replace_labelled key c ls cs'
  | _, _ => cs
  end.

(** [df[key] = c] for a column [c] on the frame's index: the columns
    under the label are replaced where they stand; a new label is
    appended. *)
Definition set_column (v : DataFrame) (key : string) (c : column) : DataFrame :=
  if mem key (columns v)
  then mkDataFrame (columns v) (index v)
                   (replace_labelled key c (columns v) (data v))
  else mkDataFrame (columns v ++ [key]) (index v) (data v ++ [c]).

Definition setitem (df : ref) (key : string) (c : column) : M unit :=
  v <- deref df ;; assign df (set_column v key c).

Definition notna_column (c : column) : list bool :=
  map (fun x => negb (isna x)) (cells c).

(** The mask of [dropna]: [notna(agg).all(axis=1)] over the columns
    [agg] taken under the labels of the subset. *)
Definition dropna_mask (v : DataFrame) (subset : list string) : list bool :=
  fold_right (fun c acc => zip_with andb (notna_column c) acc)
             (repeat true (length (index v)))
             (flat_map (fun k => labelled k (columns v) (data v)) subset).

(** [df.dropna(subset=subset)]: a new frame. *)
Definition dropna (df : ref) (subset : list string) : M ref :=
  v <- deref df ;;
  match filter (fun k => negb (mem k (columns v))) subset with
  | [] => new (select_rows (dropna_mask v subset) v)
  | missing => raise (KeyErrorLabels missing)
  end.

(** A boolean Series; [None] is [pd.NA], which only a comparison on a
    string column produces. *)
Definition mask := list (option bool).

Definition zero : spec_float := S754_zero false.

Definition is_str (o : pyobj) : bool :=
  match o with
  | OStr _ => true
  | _ => false
  end.

Definition is_some {A} (o : option A) : bool :=
  match o with
  | Some _ => true
  | None => false
  end.

(** [x >= 0] on one object that is not a [str]: a missing value
    compares false, a number compares as a number, [True] and [False]
    as 1 and 0. *)
Definition object_ge0 (o : pyobj) : bool :=
  match o with
  | OInt z => (0 <=? z)%Z
  | OFloat f => SFleb zero f
  | OBool _ => true
  | _ => false
  end.

(** [s >= 0] on a column.  Numbers compare as numbers, NaN compares
    false; in an object column a missing value compares false, a
    number compares as a number and a [str] raises; in a string column
    a missing value compares [pd.NA] and a [str] raises. *)
Definition ge0 (c : column) : outcome mask :=
  match c with
  | Int64 v => Return (map (fun z => Some (0 <=? z)%Z) v)
  | Float64 v => Return (map (fun f => Some (SFleb zero f)) v)
  | Object v =>
      if existsb is_str v then Raise TypeError
      else Return (map (fun o => Some (object_ge0 o)) v)
  | StringDtype v =>
      if existsb is_some v then Raise TypeError
      else Return (map (fun _ => None) v)
  end.

(** [df[key] >= 0] where [df[key]] is a Series; the comparison of a
    frame, and the [&] and the indexing that would follow, are outside
    this development. *)
Definition series_ge0 (sel : selection) : outcome mask :=
  match sel with
  | SeriesSel c => ge0 c
  | FrameSel _ => Raise NotModelled
  end.

(** [&] on one pair of booleans, [pd.NA] included. *)
Definition kleene_and (a b : option bool) : option bool :=
  match a, b with
  | Some false, _ | _, Some false => Some false
  | Some true, Some true => Some true
  | _, _ => None
  end.

Definition mask_and (l r : mask) : mask := zip_with kleene_and l r.

Definition is_true (o : option bool) : bool :=
  match o with
  | Some true => true
  | _ => false
  end.

(** [df[m]] for a boolean Series [m] on the frame's index: a new frame
    of the rows where [m] is [True]; [pd.NA] selects nothing. *)
Definition getitem_bool (df : ref) (m : mask) : M ref :=
  v <- deref df ;; new (select_rows (map is_true m) v).

(** ** The stages of data_cleaning.py *)

Definition clean_column_names (df : ref) : M ref :=
  df <- DataFrame_copy df ;;
  cols <- get_columns df ;;
  set_columns df (map normalize cols) ;;
  ret df.

Definition strip_whitespace_from_strings (df : ref) : M ref :=
  df <- DataFrame_copy df ;;
  string_columns <- select_dtypes_object_columns df ;;
  for_each string_columns (fun col =>
    sel <- getitem df col ;;
    s <- lift (astype_string_str sel) ;;
    setitem df col (str_strip s)) ;;
  ret df.

Definition required_columns : list string := ["price"; "quantity"].

Definition missing_column_message (col : string) : string :=
  ("Expected column '" ++ col ++ "' not found in DataFrame. "
   ++ "Check the raw CSV headers and the column cleaning step.")%string.

(** The loop both filters run over [required_columns]. *)
Definition check_required_columns (df : ref) : M unit :=
  for_each required_columns (fun col =>
    labels <- get_columns df ;;
    if negb (mem col labels)
    then raise (KeyError (missing_column_message col))
    else ret tt).

Definition handle_missing_values (df : ref) : M ref :=
  df <- DataFrame_copy df ;;
  check_required_columns df ;;
  df <- dropna df required_columns ;;
  ret df.

Definition remove_invalid_rows (df : ref) : M ref :=
  df <- DataFrame_copy df ;;
  check_required_columns df ;;
  price <- getitem df "price" ;;
  lhs <- lift (series_ge0 price) ;;
  quantity <- getitem df "quantity" ;;
  rhs <- lift (series_ge0 quantity) ;;
  df <- getitem_bool df (mask_and lhs rhs) ;;
  ret df.

(** ** Rows and the vocabulary of the specification *)

(** A row: its index label and, in column order, each column label with
    the value the row has there. *)
Definition row : Type := Z * list (string * cell).

Fixpoint zip_columns (n : nat) (cols : list (string * list cell))
  : list (list (string * cell)) :=
  match cols with
  | [] => repeat [] n
  | (name, cs) :: rest =>
      zip_with (fun c r => (name, c) :: r) cs (zip_columns n rest)
  end.

(** The table as the ordered sequence of its rows. *)
Definition rows (df : DataFrame) : list row :=
  combine (index df)
          (zip_columns (length (index df))
                       (combine (columns df) (map cells (data df)))).

Fixpoint entry (name : string) (entries : list (string * cell)) : option cell :=
  match entries with
  | [] => None
  | (l, c) :: rest => if String.eqb l name then Some c else entry name rest
  end.

(** The value of a row in the column [name]. *)
Definition value_at (name : string) (r : row) : option cell :=
  entry name (snd r).

(** The table contains the column [name]: [df[name]] is that column. *)
Definition column_of (df : DataFrame) (name : string) : option column :=
  match select df name with
  | Return (SeriesSel c) => Some c
  | _ => None
  end.

Definition float_nonnegative (f : spec_float) : bool :=
  match f with
  | S754_zero _ => true
  | S754_infinity s => negb s
  | S754_finite s _ _ => negb s
  | S754_nan => false
  end.

Definition float_negative (f : spec_float) : bool :=
  match f with
  | S754_infinity s => s
  | S754_finite s _ _ => s
  | _ => false
  end.

(** A number that is at least zero: an integer, or a float that is a
    zero, or positive and finite, or plus infinity; held as a number of
    a numeric column or as an object ([True] and [False] count as 1 and
    0). *)
Definition is_nonnegative (c : cell) : bool :=
  match c with
  | CInt z => (0 <=? z)%Z
  | CFloat f => float_nonnegative f
  | CObject (OInt z) => (0 <=? z)%Z
  | CObject (OFloat f) => float_nonnegative f
  | CObject (OBool _) => true
  | _ => false
  end.

(** A number below zero: a negative integer, a negative finite float or
    minus infinity; not minus zero. *)
Definition is_negative (c : cell) : bool :=
  match c with
  | CInt z => (z <? 0)%Z
  | CFloat f => float_negative f
  | CObject (OInt z) => (z <? 0)%Z
  | CObject (OFloat f) => float_negative f
  | _ => false
  end.

Definition holds_at (name : string) (p : cell -> bool) (r : row) : bool :=
  match value_at name r with
  | Some c => p c
  | None => false
  end.

(** A column of numbers. *)
Definition is_numeric (c : column) : bool :=
  match c with
  | Int64 _ | Float64 _ => true
  | _ => false
  end.

(** No value under a label of [required_columns] is missing. *)
Definition required_present (r : row) : bool :=
  forallb (fun e => negb (mem (fst e) required_columns) || negb (isna (snd e)))
          (snd r).

(** The values of the data model of the specification: text, a number
    (an integer, a float or a boolean), or missing. *)
Inductive value :=
| Text (s : string)
| IntNumber (z : Z)
| FloatNumber (f : spec_float)
| Boolean (b : bool)
| Missing.

Definition value_of (c : cell) : value :=
  match c with
  | CInt z => IntNumber z
  | CFloat f => if is_nan f then Missing else FloatNumber f
  | CObject (OStr s) => Text s
  | CObject (OInt z) => IntNumber z
  | CObject (OFloat f) => if is_nan f then Missing else FloatNumber f
  | CObject (OBool b) => Boolean b
  | CObject _ => Missing
  | CString (Some s) => Text s
  | CString None => Missing
  end.

(** What the Text Trimmer is specified to do to one value: a text is
    stripped, any other value passes through. *)
Definition trim_value (v : value) : value :=
  match v with
  | Text s => Text (PyStr.strip s)
  | _ => v
  end.

(** What the Text Trimmer does to one value of a column of dtype
    object: a text is stripped, a missing value stays missing, and a
    number or a boolean becomes its text [str(x)], stripped like any
    text. *)
Definition text_of_value (v : value) : value :=
  match v with
  | Text s => Text (PyStr.strip s)
  | IntNumber z => Text (PyStr.strip (PyNum.int_str z))
  | FloatNumber f => Text (PyStr.strip (PyNum.float_str f))
  | Boolean b => Text (PyStr.strip (PyNum.bool_str b))
  | Missing => Missing
  end.

Fixpoint all_space (s : string) : bool :=
  match s with
  | EmptyString => true
  | String c s' => PyStr.isspace c && all_space s'
  end.

(** The outcome of a stage as a table: the object its result points to. *)
Definition table_of (run : outcome ref * heap) : outcome DataFrame :=
  match run with
  | (Return r, h) =>
      match nth_error h r with
      | Some v => Return v
      | None => Raise NotModelled
      end
  | (Raise e, _) => Raise e
  end.

(** Every object there before a run is still there after it, as it was. *)
Definition preserves (h h' : heap) : Prop :=
  forall r v, nth_error h r = Some v -> nth_error h' r = Some v.

(** ** The stages on table values

    What a run of each stage computes, written on the frame the argument
    points to; the lemmas of the next part derive these forms from the
    stages above. *)

Definition renamed (v : DataFrame) : DataFrame :=
  mkDataFrame (map normalize (columns v)) (index v) (data v).

(** One turn of the loop of [strip_whitespace_from_strings]. *)
Definition strip_step (v : DataFrame) (col : string) : outcome DataFrame :=
  match select v col with
  | Return sel =>
      match astype_string_str sel with
      | Return s => Return (set_column v col (str_strip s))
      | Raise e => Raise e
      end
  | Raise e => Raise e
  end.

Fixpoint strip_loop (v : DataFrame) (cols : list string) : outcome DataFrame :=
  match cols with
  | [] => Return v
  | col :: rest =>
      match strip_step v col with
      | Return v' => strip_loop v' rest
      | Raise e => Raise e
      end
  end.

Definition trim_column (c : column) : column :=
  match c with
  | Object v => str_strip (map to_string_dtype v)
  | _ => c
  end.

Definition trimmed_frame (v : DataFrame) : DataFrame :=
  mkDataFrame (columns v) (index v) (map trim_column (data v)).

Fixpoint count (key : string) (labels : list string) : nat :=
  match labels with
  | [] => O
  | l :: ls => if String.eqb l key then S (count key ls) else count key ls
  end.

(** No text-typed (object) column shares its label with another column. *)
Definition text_labels_unique (v : DataFrame) : bool :=
  forallb (fun l => (count l (columns v) =? 1)%nat)
          (object_labels (columns v) (data v)).

Definition has_required (v : DataFrame) : bool :=
  mem "price" (columns v) && mem "quantity" (columns v).

(** The exception of [check_required_columns] on a frame that lacks a
    required column: it names the first one missing. *)
Definition missing_column_error (v : DataFrame) : exn :=
  if mem "price" (columns v)
  then KeyError (missing_column_message "quantity")
  else KeyError (missing_column_message "price").

Definition without_missing (v : DataFrame) : DataFrame :=
  select_rows (dropna_mask v required_columns) v.

Definition valid_rows (lhs rhs : mask) (v : DataFrame) : DataFrame :=
  select_rows (map is_true (mask_and lhs rhs)) v.

(** The comparisons, the [&] and the selection of [remove_invalid_rows]. *)
Definition validity (v : DataFrame) : outcome DataFrame :=
  match select v "price" with
  | Return price =>
      match series_ge0 price with
      | Return lhs =>
          match select v "quantity" with
          | Return quantity =>
              match series_ge0 quantity with
              | Return rhs => Return (valid_rows lhs rhs v)
              | Raise e => Raise e
              end
          | Raise e => Raise e
          end
      | Raise e => Raise e
      end
  | Raise e => Raise e
  end.

(** A stage is pure: a run from a live argument leaves every object of
    the store as it was, the argument among them, and what it returns
    is a reference to a new object. *)
Definition pure_stage (stage : ref -> M ref) : Prop :=
  forall (h : heap) (r : ref) (df : DataFrame),
    nth_error h r = Some df ->
    forall o h', stage r h = (o, h') ->
      nth_error h' r = Some df
      /\ preserves h h'
      /\ (forall r', o = Return r' ->
            nth_error h r' = None /\ r' <> r
            /\ exists out, nth_error h' r' = Some out).

(** 10.0 and -3.0 in binary64. *)
Definition ten : spec_float := S754_finite false 5629499534213120 (-49).
Definition minus_three : spec_float := S754_finite true 6755399441055744 (-51).

(** A small sales table: a text column, and the two required columns. *)
Definition sample : DataFrame :=
  mkDataFrame
    [" Product "; "Price"; "Quantity "]
    [0; 1; 2]%Z
    [Object [OStr "  tea "; ONaN; OStr "mug"];
     Float64 [ten; S754_nan; minus_three];
     Int64 [2; 1; 4]%Z].

Definition sample_clean : DataFrame :=
  mkDataFrame ["product"; "price"; "quantity"] (index sample) (data sample).

(** A row passes the Validity Filter: its price and its quantity are
    numbers that are at least zero. *)
Definition valid (r : row) : bool :=
  holds_at "price" is_nonnegative r && holds_at "quantity" is_nonnegative r.

(** No value of the row under the label [key] is missing. *)
Definition key_present (key : string) (entries : list (string * cell)) : bool :=
  forallb (fun e => negb (String.eqb (fst e) key) || negb (isna (snd e))) entries.

(** [second] run on the table [first] returns. *)
Definition and_then (first second : ref -> M ref) (df : ref) : M ref :=
  df <- first df ;; second df.

(** A table read from a file whose one record has the price [abc] and no
    quantity. *)
Definition text_price : DataFrame :=
  mkDataFrame ["price"; "quantity"] [0%Z]
              [Object [OStr "abc"]; Float64 [S754_nan]].

(** A table with two text columns whose headers differ in case and
    spacing only, and what the Column Normalizer makes of it. *)
Definition raw_names : DataFrame :=
  mkDataFrame ["Name"; " name"] [0%Z]
              [Object [OStr " a "]; Object [OStr "b "]].

Definition two_names : DataFrame :=
  mkDataFrame ["name"; "name"] [0%Z]
              [Object [OStr " a "]; Object [OStr "b "]].

(** ** Vocabulary of the further properties *)

Fixpoint has_char (c : ascii) (s : string) : bool :=
  match s with
  | EmptyString => false
  | String d s' => Ascii.eqb d c || has_char c s'
  end.

(** A label in canonical form: no whitespace at either end, no space
    character anywhere, and unchanged by [str.lower]. *)
Definition canonical (label : string) : Prop :=
  PyStr.trimmed label /\ has_char " " label = false /\ PyStr.lower label = label.

(** An object that is a number and not a missing marker. *)
Definition is_number (o : pyobj) : bool :=
  match o with
  | OInt _ | OBool _ => true
  | OFloat f => negb (is_nan f)
  | _ => false
  end.

(** The column has dtype object and holds a number. *)
Definition has_number (c : column) : bool :=
  match c with
  | Object v => existsb is_number v
  | _ => false
  end.

(** A table read from a file whose one column holds [True] in the first
    record and nothing in the second. *)
Definition flags : DataFrame :=
  mkDataFrame ["in_stock"] [0; 1]%Z [Object [OBool true; ONaN]].

(** The column holds a text value: a [str] that is not a missing
    marker. *)
Definition has_text (c : column) : bool :=
  match c with
  | Object v => existsb is_str v
  | StringDtype v => existsb is_some v
  | _ => false
  end.

Inductive dtype :=
| int64
| float64
| object
| string_dtype.

Definition dtype_of (c : column) : dtype :=
  match c with
  | Int64 _ => int64
  | Float64 _ => float64
  | Object _ => object
  | StringDtype _ => string_dtype
  end.

(** [df.dtypes], in column order. *)
Definition dtypes (df : DataFrame) : list dtype := map dtype_of (data df).

(** A table with the two required columns and nothing to drop. *)
Definition clean_sales : DataFrame :=
  mkDataFrame ["price"; "quantity"] [4; 9]%Z
              [Float64 [ten; S754_zero true]; Int64 [3; 0]%Z].

(** The dtype a column has after the Text Trimmer. *)
Definition trimmed_dtype (d : dtype) : dtype :=
  match d with
  | object => string_dtype
  | _ => d
  end.

(** The four stages one after the other, in the order the module lists
    them. *)
Definition all_stages : ref -> M ref :=
  and_then clean_column_names
    (and_then strip_whitespace_from_strings
       (and_then handle_missing_values remove_invalid_rows)).

(** * Properties *)

(** ** Strings *)

Module PyStrFacts.
Import PyStr.

Ltac each_char c := destruct c as [[] [] [] [] [] [] [] []]; reflexivity.

Lemma isspace_lower_char c : isspace (lower_char c) = isspace c.
Proof. each_char c. Qed.

Lemma lower_char_idem c : lower_char (lower_char c) = lower_char c.
Proof. each_char c. Qed.

Lemma lower_char_underscored c :
  lower_char (replace_in_char " " "_" (lower_char c))
  = replace_in_char " " "_" (lower_char c).
Proof. each_char c. Qed.

Lemma replace_in_char_idem c :
  replace_in_char " " "_" (replace_in_char " " "_" c) = replace_in_char " " "_" c.
Proof. each_char c. Qed.

Lemma replace_in_char_nonspace c :
  isspace c = false -> replace_in_char " " "_" c = c.
Proof. destruct c as [[] [] [] [] [] [] [] []]; simpl; intros H; try reflexivity; discriminate H. Qed.

Lemma lstrip_head s :
  no_space_at (first_char (lstrip s)).
Proof.
  induction s as [|c s IH]; simpl; [exact I|].
  destruct (isspace c) eqn:E; [exact IH | exact E].
Qed.

Lemma rstrip_head s c s' :
  s = String c s' -> isspace c = false -> first_char (rstrip s) = Some c.
Proof.
  intros -> E. simpl. destruct (rstrip s'); [rewrite E|]; reflexivity.
Qed.

Lemma rstrip_last s : no_space_at (last_char (rstrip s)).
Proof.
  induction s as [|c s IH]; simpl; [exact I|].
  destruct (rstrip s) as [|d r] eqn:E.
  - destruct (isspace c) eqn:Ec; simpl; [exact I | exact Ec].
  - exact IH.
Qed.

Lemma rstrip_fixed s : no_space_at (last_char s) -> rstrip s = s.
Proof.
  induction s as [|c s IH]; [reflexivity|].
  destruct s as [|d s'].
  - simpl. intros ->. reflexivity.
  - intros H. change (rstrip (String c (String d s')))
      with (match rstrip (String d s') with
            | EmptyString => if isspace c then EmptyString else String c EmptyString
            | r => String c r
            end).
    rewrite (IH H). reflexivity.
Qed.

Lemma lstrip_fixed s : no_space_at (first_char s) -> lstrip s = s.
Proof. destruct s as [|c s]; simpl; [reflexivity | intros ->; reflexivity]. Qed.

Lemma strip_trimmed s : trimmed (strip s).
Proof.
  unfold strip, trimmed. split; [|apply rstrip_last].
  pose proof (lstrip_head s) as H.
  destruct (lstrip s) as [|c t] eqn:E; [exact I|].
  simpl in H. rewrite (rstrip_head (s' := t) eq_refl H). exact H.
Qed.

Lemma strip_fixed s : trimmed s -> strip s = s.
Proof.
  intros [Hf Hl]. unfold strip. rewrite (lstrip_fixed _ Hf). apply rstrip_fixed, Hl.
Qed.

Lemma strip_idem s : strip (strip s) = strip s.
Proof. apply strip_fixed, strip_trimmed. Qed.

Lemma last_char_lower s : last_char (lower s) = option_map lower_char (last_char s).
Proof.
  induction s as [|c s IH]; [reflexivity|].
  destruct s as [|d s']; [reflexivity|]. exact IH.
Qed.

Lemma last_char_replace a b s :
  last_char (replace a b s) = option_map (replace_in_char a b) (last_char s).
Proof.
  induction s as [|c s IH]; [reflexivity|].
  destruct s as [|d s']; [reflexivity|]. exact IH.
Qed.

Lemma lower_trimmed s : trimmed s -> trimmed (lower s).
Proof.
  intros [Hf Hl]. split.
  - destruct s as [|c s]; [exact I|]. simpl in *. now rewrite isspace_lower_char.
  - rewrite last_char_lower. destruct (last_char s); [|exact I].
    simpl in *. now rewrite isspace_lower_char.
Qed.

Lemma replace_trimmed s : trimmed s -> trimmed (replace " " "_" s).
Proof.
  intros [Hf Hl]. split.
  - destruct s as [|c s]; [exact I|]. simpl in *.
    now rewrite (replace_in_char_nonspace _ Hf).
  - rewrite last_char_replace. destruct (last_char s) as [c|]; [|exact I].
    simpl in *. now rewrite (replace_in_char_nonspace _ Hl).
Qed.

Lemma lower_underscored s :
  lower (replace " " "_" (lower s)) = replace " " "_" (lower s).
Proof.
  induction s as [|c s IH]; [reflexivity|].
  simpl. now rewrite lower_char_underscored, IH.
Qed.

Lemma replace_idem s :
  replace " " "_" (replace " " "_" s) = replace " " "_" s.
Proof.
  induction s as [|c s IH]; [reflexivity|].
  simpl. now rewrite replace_in_char_idem, IH.
Qed.

Lemma replace_inner s :
  no_space_at (last_char s) -> replace " " "_" s = replace_inner_spaces s.
Proof.
  induction s as [|c s IH]; [reflexivity|].
  destruct s as [|d s'].
  - simpl. intros H. now rewrite (replace_in_char_nonspace _ H).
  - intros H. change (replace " " "_" (String c (String d s')))
      with (String (replace_in_char " " "_" c) (replace " " "_" (String d s'))).
    rewrite (IH H). reflexivity.
Qed.

Lemma replace_interior s :
  trimmed s -> replace " " "_" s = replace_interior_spaces s.
Proof.
  intros [Hf Hl]. destruct s as [|c s]; [reflexivity|].
  simpl in Hf. simpl. rewrite (replace_in_char_nonspace _ Hf). f_equal.
  destruct s as [|d s']; [reflexivity|]. apply replace_inner, Hl.
Qed.

Lemma all_space_strip s : all_space s = true -> strip s = EmptyString.
Proof.
  unfold strip. induction s as [|c s IH]; [reflexivity|].
  simpl. intros H. apply andb_true_iff in H as [-> H]. exact (IH H).
Qed.

End PyStrFacts.

Lemma normalize_trimmed col : PyStr.trimmed (normalize col).
Proof.
  unfold normalize.
  apply PyStrFacts.replace_trimmed, PyStrFacts.lower_trimmed, PyStrFacts.strip_trimmed.
Qed.

Lemma normalize_spec col : normalize col = spec_normalize col.
Proof.
  unfold normalize, spec_normalize.
  apply PyStrFacts.replace_interior, PyStrFacts.lower_trimmed, PyStrFacts.strip_trimmed.
Qed.

Lemma normalize_idem col : normalize (normalize col) = normalize col.
Proof.
  unfold normalize at 1.
  rewrite (PyStrFacts.strip_fixed (normalize_trimmed col)).
  unfold normalize.
  now rewrite PyStrFacts.lower_underscored, PyStrFacts.replace_idem.
Qed.

Example float_str_samples :
  PyNum.float_str ten = "10.0"%string
  /\ PyNum.float_str minus_three = "-3.0"%string
  /\ PyNum.float_str (S754_finite false 5 (-1)) = "2.5"%string
  /\ PyNum.float_str (S754_finite false 7205759403792794 (-56)) = "0.1"%string
  /\ PyNum.float_str (S754_finite false 5000000000000000 1) = "1e+16"%string
  /\ PyNum.float_str (S754_finite false 1 (-1074)) = "5e-324"%string
  /\ PyNum.float_str (S754_finite true 5910974510923777 (-66)) = "-8.010864257812501e-05"%string
  /\ PyNum.float_str (S754_infinity true) = "-inf"%string
  /\ PyNum.float_str (S754_zero true) = "-0.0"%string.
Proof. vm_compute. repeat split. Qed.

Example int_str_samples :
  PyNum.int_str 0 = "0"%string
  /\ PyNum.int_str (-5) = "-5"%string
  /\ PyNum.int_str 1200 = "1200"%string.
Proof. vm_compute. repeat split. Qed.

Example normalize_price : normalize " Price " = "price"%string.
Proof. reflexivity. Qed.

Example normalize_unit_price : normalize "  Unit Price" = "unit_price"%string.
Proof. reflexivity. Qed.

(** ** Lists: zipping and selecting positions *)

Section ListFacts.
Variables A B C : Type.

Lemma zip_with_length (f : A -> B -> C) l l' :
  length l = length l' -> length (zip_with f l l') = length l.
Proof.
  revert l'. induction l as [|a l IH]; intros [|b l'] H; simpl in *; try congruence.
  f_equal. apply IH. congruence.
Qed.

Lemma zip_with_map_same (D : Type) (f : A -> B -> C) (g : D -> A) (k : D -> B) l :
  zip_with f (map g l) (map k l) = map (fun x => f (g x) (k x)) l.
Proof. induction l as [|x l IH]; simpl; [reflexivity | now rewrite IH]. Qed.

Lemma compress_map (f : A -> B) keep l :
  compress keep (map f l) = map f (compress keep l).
Proof.
  revert l. induction keep as [|b keep IH]; intros [|x l]; simpl; try reflexivity.
  destruct b; simpl; now rewrite IH.
Qed.

Lemma compress_map_filter (f : A -> bool) l : compress (map f l) l = filter f l.
Proof.
  induction l as [|x l IH]; simpl; [reflexivity|].
  destruct (f x); now rewrite IH.
Qed.

Lemma compress_length keep (l : list A) (l' : list B) :
  length l = length keep -> length l' = length keep ->
  length (compress keep l) = length (compress keep l').
Proof.
  revert l l'. induction keep as [|b keep IH]; intros [|x l] [|y l'] H H'; simpl in *;
    try reflexivity; try discriminate.
  destruct b; simpl; [f_equal|]; apply IH; congruence.
Qed.

Lemma compress_combine keep (l : list A) (l' : list B) :
  compress keep (combine l l') = combine (compress keep l) (compress keep l').
Proof.
  revert l l'. induction keep as [|b keep IH]; intros [|x l] [|y l']; simpl;
    try reflexivity.
  - destruct b; simpl; now rewrite ?combine_nil.
  - destruct b; simpl; now rewrite IH.
Qed.

Lemma compress_zip_with (f : A -> B -> C) keep l l' :
  compress keep (zip_with f l l') = zip_with f (compress keep l) (compress keep l').
Proof.
  revert l l'. induction keep as [|b keep IH]; intros [|x l] [|y l']; simpl;
    try reflexivity.
  - destruct b; simpl; now destruct (compress keep l).
  - destruct b; simpl; now rewrite IH.
Qed.

Lemma compress_repeat keep (x : A) (l : list B) :
  length l = length keep ->
  compress keep (repeat x (length keep)) = repeat x (length (compress keep l)).
Proof.
  revert l. induction keep as [|b keep IH]; intros [|y l] H; simpl in *;
    try reflexivity; try discriminate.
  destruct b; simpl; [f_equal|]; apply IH; congruence.
Qed.

Lemma compress_compress (m1 m3 : list bool) (l : list A) :
  length m1 = length l -> length m3 = length l ->
  (forall i, nth i m3 false = true -> nth i m1 false = true) ->
  compress (compress m1 m3) (compress m1 l) = compress m3 l.
Proof.
  revert m3 l. induction m1 as [|b m1 IH]; intros [|c m3] [|x l] H1 H3 Himp;
    simpl in *; try reflexivity; try discriminate.
  assert (Hrest : forall i, nth i m3 false = true -> nth i m1 false = true)
    by (intros i; exact (Himp (S i))).
  destruct b; simpl.
  - destruct c; [f_equal|]; apply IH; auto.
  - destruct c; [specialize (Himp 0%nat eq_refl); discriminate Himp|].
    apply IH; auto.
Qed.

Lemma map_snd_combine (l : list A) (l' : list B) (f : B -> C) :
  length l = length l' -> map (fun p => f (snd p)) (combine l l') = map f l'.
Proof.
  revert l'. induction l as [|a l IH]; intros [|b l'] H; simpl in *;
    try reflexivity; try discriminate.
  f_equal. apply IH. congruence.
Qed.

Lemma map_zip_with (D : Type) (g : C -> D) (f : A -> B -> C) l l' :
  map g (zip_with f l l') = zip_with (fun a b => g (f a b)) l l'.
Proof.
  revert l'. induction l as [|a l IH]; intros [|b l']; simpl; try reflexivity.
  now rewrite IH.
Qed.

Lemma zip_with_fst (g : A -> C) (l : list A) (l' : list B) :
  length l = length l' -> zip_with (fun a _ => g a) l l' = map g l.
Proof.
  revert l'. induction l as [|a l IH]; intros [|b l'] H; simpl in *;
    try reflexivity; try discriminate.
  f_equal. apply IH. congruence.
Qed.

Lemma zip_with_snd (g : B -> C) (l : list A) (l' : list B) :
  length l = length l' -> zip_with (fun _ b => g b) l l' = map g l'.
Proof.
  revert l'. induction l as [|a l IH]; intros [|b l'] H; simpl in *;
    try reflexivity; try discriminate.
  f_equal. apply IH. congruence.
Qed.

Lemma zip_with_ext (f g : A -> B -> C) l l' :
  (forall a b, f a b = g a b) -> zip_with f l l' = zip_with g l l'.
Proof.
  intros E. revert l'. induction l as [|a l IH]; intros [|b l']; simpl;
    try reflexivity.
  now rewrite E, IH.
Qed.

Lemma zip_with_map_map (D E : Type) (f : A -> B -> C) (g : D -> A) (k : E -> B) l l' :
  zip_with f (map g l) (map k l') = zip_with (fun x y => f (g x) (k y)) l l'.
Proof.
  revert l'. induction l as [|a l IH]; intros [|b l']; simpl; try reflexivity.
  now rewrite IH.
Qed.

End ListFacts.

Lemma zip_with_and_true l n :
  length l = n -> zip_with andb l (repeat true n) = l.
Proof.
  revert n. induction l as [|b l IH]; intros [|n] H; simpl in *;
    try reflexivity; try discriminate.
  rewrite andb_true_r. f_equal. apply IH. congruence.
Qed.

Lemma zip_with_true_and (X : Type) (xs : list X) l :
  length xs = length l -> zip_with andb (map (fun _ => true) xs) l = l.
Proof.
  revert l. induction xs as [|x xs IH]; intros [|b l] H; simpl in *;
    try reflexivity; try discriminate.
  f_equal. apply IH. congruence.
Qed.

(** ** The object store *)

Lemma nth_new (h t : heap) v d : nth (length h) (h ++ v :: t) d = v.
Proof. rewrite app_nth2, Nat.sub_diag by lia. reflexivity. Qed.

Lemma update_new (h t : heap) v w :
  update (length h) w (h ++ v :: t) = h ++ w :: t.
Proof. induction h as [|x h IH]; simpl; [reflexivity | now rewrite IH]. Qed.

Lemma nth_error_new (h t : heap) v : nth_error (h ++ v :: t) (length h) = Some v.
Proof. rewrite nth_error_app2, Nat.sub_diag by lia. reflexivity. Qed.

Lemma nth_error_nth (h : heap) r v :
  nth_error h r = Some v -> nth r h empty_frame = v.
Proof. intros H. now apply nth_error_nth. Qed.

Lemma preserves_app h t : preserves h (h ++ t).
Proof.
  intros r v H. rewrite nth_error_app1; [exact H|].
  apply nth_error_Some. congruence.
Qed.

Lemma live_lt (h : heap) r v : nth_error h r = Some v -> r < length h.
Proof. intros H. apply nth_error_Some. congruence. Qed.

(** ** Runs of the stages *)

Lemma clean_column_names_run h r :
  clean_column_names r h
  = (Return (length h), h ++ [renamed (nth r h empty_frame)]).
Proof.
  unfold clean_column_names, DataFrame_copy, get_columns, set_columns,
    bind, ret, deref, new, assign.
  cbn. rewrite nth_new, update_new. reflexivity.
Qed.

Lemma strip_loop_run h cols :
  forall v, exists w,
    for_each cols (fun col =>
      sel <- getitem (length h) col ;;
      s <- lift (astype_string_str sel) ;;
      setitem (length h) col (str_strip s)) (h ++ [v])
    = (match strip_loop v cols with
       | Return _ => Return tt
       | Raise e => Raise e
       end, h ++ [w])
    /\ (forall v', strip_loop v cols = Return v' -> w = v').
Proof.
  induction cols as [|col cols IH]; intros v.
  - exists v. split; [reflexivity|]. simpl. congruence.
  - cbn [for_each strip_loop]. unfold bind at 1.
    unfold bind at 1, getitem at 1, bind at 1, deref at 1, lift at 1.
    rewrite nth_new. unfold strip_step.
    destruct (select v col) as [sel|e]; [|exists v; split; [reflexivity | discriminate]].
    unfold bind at 1, lift at 1.
    destruct (astype_string_str sel) as [s|e];
      [|exists v; split; [reflexivity | discriminate]].
    unfold setitem, bind at 1, deref at 1, assign.
    rewrite nth_new, update_new.
    destruct (IH (set_column v col (str_strip s))) as [w [Hrun Hw]].
    exists w. split; [exact Hrun | exact Hw].
Qed.

Lemma strip_whitespace_from_strings_run h r :
  let v := nth r h empty_frame in
  exists w,
    strip_whitespace_from_strings r h
    = (match strip_loop v (object_labels (columns v) (data v)) with
       | Return _ => Return (length h)
       | Raise e => Raise e
       end, h ++ [w])
    /\ (forall v', strip_loop v (object_labels (columns v) (data v)) = Return v'
                   -> w = v').
Proof.
  intros v. unfold strip_whitespace_from_strings.
  unfold bind at 1, DataFrame_copy, bind at 1, deref at 1, new. fold v.
  unfold bind at 1, select_dtypes_object_columns, bind at 1, deref at 1, ret at 1.
  rewrite nth_new. unfold bind at 1.
  destruct (strip_loop_run h (object_labels (columns v) (data v)) v) as [w [Hrun Hw]].
  rewrite Hrun. exists w. split; [|exact Hw].
  destruct (strip_loop v (object_labels (columns v) (data v))); reflexivity.
Qed.

Lemma check_required_columns_run (h : heap) df :
  let v := nth df h empty_frame in
  check_required_columns df h
  = (if has_required v then Return tt else Raise (missing_column_error v), h).
Proof.
  intros v. unfold check_required_columns, required_columns, has_required,
    missing_column_error. cbn [for_each].
  unfold bind, get_columns, bind, deref, ret, raise. subst v.
  destruct (mem "price" (columns _)); cbn; [|reflexivity].
  destruct (mem "quantity" (columns _)); reflexivity.
Qed.

Lemma handle_missing_values_run h r :
  let v := nth r h empty_frame in
  handle_missing_values r h
  = if has_required v
    then (Return (S (length h)), h ++ [v; without_missing v])
    else (Raise (missing_column_error v), h ++ [v]).
Proof.
  intros v. unfold handle_missing_values.
  unfold bind at 1, DataFrame_copy, bind at 1, deref at 1, new. fold v.
  unfold bind at 1. rewrite check_required_columns_run, nth_new.
  destruct (has_required v) eqn:E; [|reflexivity].
  unfold bind, dropna, bind, deref, new, ret, raise. rewrite nth_new.
  unfold has_required in E. apply andb_true_iff in E as [Ep Eq].
  unfold required_columns. cbn [filter]. rewrite Ep, Eq. cbn.
  rewrite length_app, <- app_assoc. cbn. rewrite Nat.add_1_r. reflexivity.
Qed.

Lemma remove_invalid_rows_run h r :
  let v := nth r h empty_frame in
  remove_invalid_rows r h
  = if has_required v
    then match validity v with
         | Return out => (Return (S (length h)), h ++ [v; out])
         | Raise e => (Raise e, h ++ [v])
         end
    else (Raise (missing_column_error v), h ++ [v]).
Proof.
  intros v. unfold remove_invalid_rows.
  unfold bind at 1, DataFrame_copy, bind at 1, deref at 1, new. fold v.
  unfold bind at 1. rewrite check_required_columns_run, nth_new.
  destruct (has_required v) eqn:E; [|reflexivity].
  unfold validity, getitem, getitem_bool, bind, deref, lift, new, ret.
  rewrite !nth_new.
  destruct (select v "price") as [price|e]; [|reflexivity].
  destruct (series_ge0 price) as [lhs|e]; [|reflexivity].
  destruct (select v "quantity") as [quantity|e]; [|reflexivity].
  destruct (series_ge0 quantity) as [rhs|e]; [|reflexivity].
  rewrite length_app, <- app_assoc. cbn. rewrite Nat.add_1_r. reflexivity.
Qed.

(** ** The Column Normalizer *)

(** C5: the Column Normalizer returns a table with the index and the
    data of its input (every value, in the same rows and the same
    order) and whose column labels are, one for one and in order, the
    labels of the input stripped of surrounding whitespace, lowercased,
    with each interior space replaced by an underscore; the list of
    labels keeps its length, so labels that collapse to the same name
    are all kept (no deduplication). *)
Theorem clean_column_names_normalizes (h : heap) (r : ref) (df : DataFrame) :
  nth_error h r = Some df ->
  exists r' h' out,
    clean_column_names r h = (Return r', h')
    /\ nth_error h' r' = Some out
    /\ index out = index df
    /\ data out = data df
    /\ columns out = map spec_normalize (columns df)
    /\ length (columns out) = length (columns df).
Proof.
  intros Hr. rewrite clean_column_names_run, (nth_error_nth _ _ Hr).
  exists (length h), (h ++ [renamed df]), (renamed df).
  split; [reflexivity|]. split; [apply nth_error_new|].
  unfold renamed; simpl. repeat split.
  - apply map_ext. exact normalize_spec.
  - apply length_map.
Qed.

Lemma clean_column_names_normalizes_witness :
  exists r' h' out,
    clean_column_names 0 [sample] = (Return r', h')
    /\ nth_error h' r' = Some out
    /\ index out = index sample
    /\ data out = data sample
    /\ columns out = map spec_normalize (columns sample)
    /\ length (columns out) = length (columns sample).
Proof. apply (@clean_column_names_normalizes [sample] 0 sample). reflexivity. Defined.

Example clean_column_names_sample :
  table_of (clean_column_names 0 [sample]) = Return sample_clean.
Proof. reflexivity. Qed.

Example clean_column_names_collapse :
  table_of (clean_column_names 0
              [mkDataFrame ["Price"; " price "] [7%Z] [Int64 [1%Z]; Int64 [2%Z]]])
  = Return (mkDataFrame ["price"; "price"] [7%Z] [Int64 [1%Z]; Int64 [2%Z]]).
Proof. reflexivity. Qed.

(** C6: the Column Normalizer is idempotent: normalizing the table it
    returned gives a table equal to that one, labels and data. *)
Theorem clean_column_names_idempotent (h : heap) (r : ref) (df : DataFrame) :
  nth_error h r = Some df ->
  exists r1 h1 r2 h2 once,
    clean_column_names r h = (Return r1, h1)
    /\ clean_column_names r1 h1 = (Return r2, h2)
    /\ nth_error h1 r1 = Some once
    /\ nth_error h2 r2 = Some once.
Proof.
  intros Hr. rewrite clean_column_names_run, (nth_error_nth _ _ Hr).
  exists (length h), (h ++ [renamed df]).
  rewrite clean_column_names_run, nth_new.
  exists (length (h ++ [renamed df])),
    ((h ++ [renamed df]) ++ [renamed (renamed df)]), (renamed df).
  split; [reflexivity|]. split; [reflexivity|].
  split; [apply nth_error_new|].
  replace (renamed (renamed df)) with (renamed df); [apply nth_error_new|].
  unfold renamed; simpl. f_equal. rewrite map_map.
  apply map_ext. intros col. symmetry. apply normalize_idem.
Qed.

Lemma clean_column_names_idempotent_witness :
  exists r1 h1 r2 h2 once,
    clean_column_names 0 [sample] = (Return r1, h1)
    /\ clean_column_names r1 h1 = (Return r2, h2)
    /\ nth_error h1 r1 = Some once
    /\ nth_error h2 r2 = Some once.
Proof. apply (@clean_column_names_idempotent [sample] 0 sample). reflexivity. Defined.

(** ** Purity and the missing-column error *)

Lemma pure_stage_app (stage : ref -> M ref) :
  (forall h r, exists o t,
      stage r h = (o, h ++ t)
      /\ forall r', o = Return r' -> length h <= r' < length (h ++ t)) ->
  pure_stage stage.
Proof.
  intros Hrun h r df Hr o h' Hstage.
  destruct (Hrun h r) as [o' [t [E Hfresh]]].
  rewrite E in Hstage. injection Hstage as <- <-.
  split; [apply preserves_app, Hr|]. split; [apply preserves_app|].
  intros r' ->. specialize (Hfresh r' eq_refl).
  pose proof (live_lt _ _ Hr) as Hlt.
  split; [apply nth_error_None; lia|]. split; [lia|].
  destruct (nth_error (h ++ t) r') as [out|] eqn:En; [now exists out|].
  apply nth_error_None in En. lia.
Qed.

(** C9: each of the four stages is pure with respect to its argument:
    whatever the outcome of the run, the table passed in (and every
    other object of the store) is as it was, and a returned table is a
    new object, not the argument. *)
Theorem stages_pure :
  pure_stage clean_column_names
  /\ pure_stage strip_whitespace_from_strings
  /\ pure_stage handle_missing_values
  /\ pure_stage remove_invalid_rows.
Proof.
  split; [|split; [|split]]; apply pure_stage_app; intros h r.
  - rewrite clean_column_names_run. eexists _, _. split; [reflexivity|].
    intros r' [= <-]. rewrite length_app. simpl. lia.
  - destruct (strip_whitespace_from_strings_run h r) as [w [E _]].
    rewrite E. eexists _, _. split; [reflexivity|].
    intros r' Hr'. rewrite length_app. simpl.
    destruct (strip_loop _ _); [injection Hr' as <-; lia | discriminate].
  - rewrite handle_missing_values_run.
    destruct (has_required _); eexists _, _; (split; [reflexivity|]).
    + intros r' [= <-]. rewrite length_app. simpl. lia.
    + discriminate.
  - rewrite remove_invalid_rows_run.
    destruct (has_required _); [destruct (validity _)|];
      eexists _, _; (split; [reflexivity|]); try discriminate.
    intros r' [= <-]. rewrite length_app. simpl. lia.
Qed.

Lemma stages_pure_witness :
  nth_error (snd (remove_invalid_rows 0 [sample_clean])) 0 = Some sample_clean
  /\ preserves [sample_clean] (snd (remove_invalid_rows 0 [sample_clean]))
  /\ (forall r', fst (remove_invalid_rows 0 [sample_clean]) = Return r' ->
        nth_error [sample_clean] r' = None /\ r' <> 0
        /\ exists out,
             nth_error (snd (remove_invalid_rows 0 [sample_clean])) r' = Some out).
Proof.
  apply (proj2 (proj2 (proj2 stages_pure)) [sample_clean] 0 sample_clean);
    reflexivity.
Defined.

Example stages_pure_sample :
  snd (clean_column_names 0 [sample]) = [sample; sample_clean]
  /\ nth_error (snd (strip_whitespace_from_strings 0 [sample])) 0 = Some sample
  /\ nth_error (snd (handle_missing_values 0 [sample_clean])) 0 = Some sample_clean
  /\ nth_error (snd (remove_invalid_rows 0 [sample_clean])) 0 = Some sample_clean.
Proof. repeat split. Qed.

(** C4: on a table that lacks the column "price" or the column
    "quantity", the Required-Value Filter and the Validity Filter both
    raise the KeyError that names the first missing column.  The run
    has made the copy and nothing else: no filtered table exists, the
    argument is as it was, and the same error is raised whatever the
    rows of the table are. *)
Theorem missing_column_fails_first (h : heap) (r : ref) (df : DataFrame) :
  nth_error h r = Some df ->
  mem "price" (columns df) = false \/ mem "quantity" (columns df) = false ->
  exists col,
    In col required_columns
    /\ mem col (columns df) = false
    /\ handle_missing_values r h
       = (Raise (KeyError (missing_column_message col)), h ++ [df])
    /\ remove_invalid_rows r h
       = (Raise (KeyError (missing_column_message col)), h ++ [df])
    /\ nth_error (h ++ [df]) r = Some df
    /\ (forall (df' : DataFrame) (h0 : heap) (r0 : ref),
          columns df' = columns df -> nth_error h0 r0 = Some df' ->
          fst (handle_missing_values r0 h0)
          = Raise (KeyError (missing_column_message col))
          /\ fst (remove_invalid_rows r0 h0)
             = Raise (KeyError (missing_column_message col))).
Proof.
  intros Hr Habsent.
  assert (Hreq : forall v, columns v = columns df -> has_required v = false).
  { intros v Hv. unfold has_required. rewrite Hv.
    destruct Habsent as [-> | ->]; [reflexivity | apply andb_false_r]. }
  exists (if mem "price" (columns df) then "quantity" else "price")%string.
  assert (Herr : forall v, columns v = columns df ->
            missing_column_error v
            = KeyError (missing_column_message
                          (if mem "price" (columns df) then "quantity" else "price"))).
  { intros v Hv. unfold missing_column_error. rewrite Hv.
    destruct (mem "price" (columns df)); reflexivity. }
  split; [destruct (mem "price" (columns df)); simpl; auto|].
  split; [destruct (mem "price" (columns df)) eqn:Ep;
          [destruct Habsent as [E | E]; [discriminate E | exact E] | exact Ep]|].
  rewrite handle_missing_values_run, remove_invalid_rows_run,
    (nth_error_nth _ _ Hr), (Hreq df eq_refl), (Herr df eq_refl).
  split; [reflexivity|]. split; [reflexivity|].
  split; [apply preserves_app, Hr|].
  intros df' h0 r0 Hcols Hr0.
  rewrite handle_missing_values_run, remove_invalid_rows_run,
    (nth_error_nth _ _ Hr0), (Hreq df' Hcols), (Herr df' Hcols).
  split; reflexivity.
Qed.

Lemma missing_column_fails_first_witness :
  exists col,
    In col required_columns
    /\ mem col (columns sample) = false
    /\ handle_missing_values 0 [sample]
       = (Raise (KeyError (missing_column_message col)), [sample] ++ [sample])
    /\ remove_invalid_rows 0 [sample]
       = (Raise (KeyError (missing_column_message col)), [sample] ++ [sample])
    /\ nth_error ([sample] ++ [sample]) 0 = Some sample
    /\ (forall (df' : DataFrame) (h0 : heap) (r0 : ref),
          columns df' = columns sample -> nth_error h0 r0 = Some df' ->
          fst (handle_missing_values r0 h0)
          = Raise (KeyError (missing_column_message col))
          /\ fst (remove_invalid_rows r0 h0)
             = Raise (KeyError (missing_column_message col))).
Proof.
  apply (@missing_column_fails_first [sample] 0 sample);
    [reflexivity | left; reflexivity].
Defined.

(** ** Frames: shape, labels and rows *)

Lemma nth_zip_with_imp (X Y : Type) (f g : X -> Y -> bool) l l' :
  (forall a b, f a b = true -> g a b = true) ->
  forall i, nth i (zip_with f l l') false = true ->
            nth i (zip_with g l l') false = true.
Proof.
  intros Himp. revert l'.
  induction l as [|a l IH]; intros [|b l'] [|i]; simpl; auto.
Qed.

Lemma well_formed_shape v :
  well_formed v = true ->
  length (data v) = length (columns v)
  /\ Forall (fun c => length (cells c) = length (index v)) (data v).
Proof.
  unfold well_formed. intros H. apply andb_true_iff in H as [Hl Hc].
  split; [now apply Nat.eqb_eq|].
  apply Forall_forall. intros c Hin.
  rewrite forallb_forall in Hc. now apply Nat.eqb_eq, Hc.
Qed.

Lemma cells_take_column keep c :
  cells (take_column keep c) = compress keep (cells c).
Proof. destruct c; simpl; now rewrite compress_map. Qed.

Lemma labelled_map (f : column -> column) key labels cs :
  labelled key labels (map f cs) = map f (labelled key labels cs).
Proof.
  revert cs. induction labels as [|l ls IH]; intros [|c cs]; simpl; try reflexivity.
  destruct (String.eqb l key); simpl; now rewrite IH.
Qed.

Lemma labelled_shape (P : column -> Prop) key labels cs :
  Forall P cs -> Forall P (labelled key labels cs).
Proof.
  intros H. revert labels. induction H as [|c cs Hc _ IH]; intros [|l ls]; simpl;
    try constructor.
  destruct (String.eqb l key); [constructor|]; auto.
Qed.

Lemma zip_columns_length n cols :
  Forall (fun col => length (snd col) = n) cols ->
  length (zip_columns n cols) = n.
Proof.
  induction 1 as [|[name cs] cols Hc _ IH]; simpl; [apply repeat_length|].
  simpl in Hc. rewrite zip_with_length; congruence.
Qed.

Lemma labelled_cells_shape n labels cs :
  Forall (fun c => length (cells c) = n) cs ->
  Forall (fun col : string * list cell => length (snd col) = n)
         (combine labels (map cells cs)).
Proof.
  intros H. revert labels. induction H as [|c cs Hc _ IH]; intros [|l ls]; simpl;
    constructor; auto.
Qed.

Lemma rows_length v :
  well_formed v = true -> length (rows v) = length (index v).
Proof.
  intros Hwf. destruct (well_formed_shape _ Hwf) as [_ Hc].
  unfold rows, row. rewrite length_combine, zip_columns_length.
  - apply Nat.min_id.
  - now apply labelled_cells_shape.
Qed.

Lemma zip_columns_compress keep (idx : list Z) labels cs :
  Forall (fun c => length (cells c) = length keep) cs ->
  length idx = length keep ->
  zip_columns (length (compress keep idx))
              (combine labels (map cells (map (take_column keep) cs)))
  = compress keep (zip_columns (length keep) (combine labels (map cells cs))).
Proof.
  intros H Hidx. revert labels.
  induction H as [|c cs Hc _ IH]; intros [|l ls]; simpl;
    try (symmetry; apply compress_repeat; exact Hidx).
  rewrite compress_zip_with, cells_take_column, IH. reflexivity.
Qed.

(** Selecting rows of a frame selects the same positions of its rows. *)
Lemma rows_select_rows keep v :
  well_formed v = true -> length keep = length (index v) ->
  rows (select_rows keep v) = compress keep (rows v).
Proof.
  intros Hwf Hk. destruct (well_formed_shape _ Hwf) as [_ Hc].
  unfold rows, row, select_rows. simpl. rewrite compress_combine. f_equal.
  rewrite <- Hk. apply zip_columns_compress; [rewrite Hk; exact Hc | now symmetry].
Qed.

Lemma well_formed_select_rows keep v :
  well_formed v = true -> length keep = length (index v) ->
  well_formed (select_rows keep v) = true.
Proof.
  intros Hwf Hk. destruct (well_formed_shape _ Hwf) as [Hl Hc].
  unfold well_formed, select_rows. simpl. apply andb_true_iff. split.
  - apply Nat.eqb_eq. now rewrite length_map.
  - apply forallb_forall. intros c Hin. apply in_map_iff in Hin as [c0 [<- Hin]].
    apply Nat.eqb_eq. rewrite cells_take_column.
    rewrite Forall_forall in Hc.
    apply compress_length; [rewrite Hk; now apply Hc | now rewrite Hk].
Qed.

Lemma column_of_spec v name c :
  column_of v name = Some c <->
  mem name (columns v) = true /\ labelled name (columns v) (data v) = [c].
Proof.
  unfold column_of, select. destruct (mem name (columns v)); [|split; [discriminate | intros [H _]; discriminate H]].
  destruct (labelled name (columns v) (data v)) as [|c0 [|c1 cs]]; split;
    try discriminate; try (intros [_ H]; discriminate H).
  - intros [= ->]. auto.
  - intros [_ [= ->]]. reflexivity.
Qed.

Lemma column_of_select_rows keep v name c :
  column_of v name = Some c ->
  column_of (select_rows keep v) name = Some (take_column keep c).
Proof.
  rewrite !column_of_spec. simpl. intros [Hm Hl]. split; [exact Hm|].
  now rewrite labelled_map, Hl.
Qed.

Lemma column_of_shape v name c :
  well_formed v = true -> column_of v name = Some c ->
  length (cells c) = length (index v).
Proof.
  intros Hwf Hc. destruct (well_formed_shape _ Hwf) as [_ Hs].
  apply column_of_spec in Hc as [_ Hl].
  pose proof (labelled_shape name (columns v) Hs) as H.
  rewrite Hl in H. now inversion H.
Qed.

(** Reading a column off the rows gives the values of the first column
    under that label. *)
Lemma entry_zip_columns name n labels cs c rest :
  Forall (fun c => length (cells c) = n) cs ->
  labelled name labels cs = c :: rest ->
  map (entry name) (zip_columns n (combine labels (map cells cs)))
  = map Some (cells c).
Proof.
  intros H. revert labels.
  induction H as [|c0 cs Hc Hcs IH]; intros [|l ls]; simpl; try discriminate.
  pose proof (zip_columns_length (labelled_cells_shape ls Hcs)) as Hlen.
  rewrite map_zip_with. simpl.
  destruct (String.eqb l name).
  - intros [= -> _]. apply zip_with_fst. congruence.
  - intros Hl. rewrite (zip_with_snd (entry name)) by congruence. now apply IH.
Qed.

Lemma holds_at_column v name c (p : cell -> bool) :
  well_formed v = true -> column_of v name = Some c ->
  map (holds_at name p) (rows v) = map p (cells c).
Proof.
  intros Hwf Hc. destruct (well_formed_shape _ Hwf) as [_ Hs].
  apply column_of_spec in Hc as [_ Hl].
  unfold rows, holds_at, value_at, row.
  rewrite (map_snd_combine _ _
             (fun e => match entry name e with Some x => p x | None => false end)).
  - rewrite <- (map_map (entry name)
                        (fun o => match o with Some x => p x | None => false end)).
    erewrite entry_zip_columns; [|exact Hs|exact Hl]. now rewrite map_map.
  - rewrite zip_columns_length; [reflexivity | now apply labelled_cells_shape].
Qed.

(** ** The mask of the Required-Value Filter *)

Lemma zip_with_andb_assoc l1 l2 l3 :
  zip_with andb l1 (zip_with andb l2 l3) = zip_with andb (zip_with andb l1 l2) l3.
Proof.
  revert l2 l3. induction l1 as [|a l1 IH]; intros [|b l2] [|c l3]; simpl;
    try reflexivity.
  now rewrite andb_assoc, IH.
Qed.

Lemma zip_with_true_l l n :
  length l = n -> zip_with andb (repeat true n) l = l.
Proof.
  revert n. induction l as [|b l IH]; intros [|n] H; simpl in *;
    try reflexivity; try discriminate.
  f_equal. apply IH. congruence.
Qed.

Lemma key_mask key n labels cs :
  Forall (fun c => length (cells c) = n) cs ->
  fold_right (fun c acc => zip_with andb (notna_column c) acc)
             (repeat true n) (labelled key labels cs)
  = map (key_present key) (zip_columns n (combine labels (map cells cs))).
Proof.
  intros H. revert labels.
  induction H as [|c cs Hc Hcs IH]; intros [|l ls]; simpl;
    try (now rewrite map_repeat).
  pose proof (zip_columns_length (labelled_cells_shape ls Hcs)) as Hlen.
  rewrite map_zip_with. simpl.
  destruct (String.eqb l key); simpl.
  - rewrite IH. unfold notna_column. rewrite zip_with_map_map. reflexivity.
  - rewrite (zip_with_snd (key_present key)) by congruence. apply IH.
Qed.

Lemma fold_mask_acc n cs acc :
  length acc = n ->
  fold_right (fun c acc => zip_with andb (notna_column c) acc) acc cs
  = zip_with andb
      (fold_right (fun c acc => zip_with andb (notna_column c) acc)
                  (repeat true n) cs)
      acc.
Proof.
  intros Hacc. induction cs as [|c cs IH]; simpl.
  - symmetry. now apply zip_with_true_l.
  - now rewrite IH, zip_with_andb_assoc.
Qed.

Lemma required_present_keys e :
  key_present "price" e && key_present "quantity" e
  = forallb (fun x => negb (mem (fst x) required_columns) || negb (isna (snd x))) e.
Proof.
  induction e as [|[l c] e IH]; [reflexivity|].
  unfold key_present, required_columns in *. cbn [forallb fst snd mem] in *.
  rewrite <- IH, (String.eqb_sym "price" l), (String.eqb_sym "quantity" l).
  destruct (String.eqb l "price"), (String.eqb l "quantity"), (isna c); simpl;
    try reflexivity;
    repeat match goal with |- context [forallb ?f ?l] => destruct (forallb f l) end;
    reflexivity.
Qed.

Lemma dropna_mask_rows v :
  well_formed v = true ->
  dropna_mask v required_columns = map required_present (rows v).
Proof.
  intros Hwf. destruct (well_formed_shape _ Hwf) as [_ Hs].
  pose proof (zip_columns_length (labelled_cells_shape (columns v) Hs)) as Hlen.
  unfold dropna_mask, required_columns. cbn [flat_map].
  rewrite app_nil_r, fold_right_app.
  rewrite (fold_mask_acc (n := length (index v))).
  - rewrite !key_mask by exact Hs. rewrite zip_with_map_same.
    unfold rows, required_present, row.
    rewrite (map_snd_combine _ _
               (forallb (fun x => negb (mem (fst x) required_columns)
                                  || negb (isna (snd x))))) by congruence.
    apply map_ext. exact required_present_keys.
  - rewrite key_mask by exact Hs. now rewrite length_map.
Qed.

Lemma nth_error_new2 (h : heap) v w :
  nth_error (h ++ [v; w]) (S (length h)) = Some w.
Proof.
  change (h ++ [v; w]) with (h ++ [v] ++ [w]). rewrite app_assoc.
  replace (S (length h)) with (length (h ++ [v])); [apply nth_error_new|].
  rewrite length_app. simpl. lia.
Qed.

Lemma table_of_handle_missing_values h r df :
  nth_error h r = Some df ->
  table_of (handle_missing_values r h)
  = if has_required df then Return (without_missing df)
    else Raise (missing_column_error df).
Proof.
  intros Hr. rewrite handle_missing_values_run, (nth_error_nth _ _ Hr).
  destruct (has_required df); [|reflexivity].
  unfold table_of. now rewrite nth_error_new2.
Qed.

Lemma table_of_remove_invalid_rows h r df :
  nth_error h r = Some df ->
  table_of (remove_invalid_rows r h)
  = if has_required df then validity df else Raise (missing_column_error df).
Proof.
  intros Hr. rewrite remove_invalid_rows_run, (nth_error_nth _ _ Hr).
  destruct (has_required df); [|reflexivity].
  destruct (validity df); [|reflexivity].
  unfold table_of. now rewrite nth_error_new2.
Qed.

(** ** The Required-Value Filter *)

(** C3: on a table that has the columns "price" and "quantity", the
    Required-Value Filter returns a table with the same columns whose
    rows are exactly the rows of the input in which no value under
    "price" or "quantity" is missing, each as it was (index label and
    values) and in the order of the input. *)
Theorem handle_missing_values_keeps_present (h : heap) (r : ref) (df : DataFrame) :
  nth_error h r = Some df ->
  well_formed df = true ->
  mem "price" (columns df) = true ->
  mem "quantity" (columns df) = true ->
  exists out,
    table_of (handle_missing_values r h) = Return out
    /\ columns out = columns df
    /\ rows out = filter required_present (rows df).
Proof.
  intros Hr Hwf Hp Hq.
  rewrite (table_of_handle_missing_values h r Hr).
  unfold has_required. rewrite Hp, Hq. simpl.
  exists (without_missing df). split; [reflexivity|]. split; [reflexivity|].
  unfold without_missing. rewrite (dropna_mask_rows df Hwf).
  rewrite rows_select_rows by (rewrite ?length_map; auto using rows_length).
  apply compress_map_filter.
Qed.

Lemma handle_missing_values_keeps_present_witness :
  exists out,
    table_of (handle_missing_values 0 [sample_clean]) = Return out
    /\ columns out = columns sample_clean
    /\ rows out = filter required_present (rows sample_clean).
Proof.
  apply (@handle_missing_values_keeps_present [sample_clean] 0 sample_clean);
    reflexivity.
Defined.

Example handle_missing_values_sample :
  table_of (handle_missing_values 0 [sample_clean])
  = Return (mkDataFrame ["product"; "price"; "quantity"] [0; 2]%Z
              [Object [OStr "  tea "; OStr "mug"];
               Float64 [ten; minus_three];
               Int64 [2; 4]%Z]).
Proof. reflexivity. Qed.

(** ** The Validity Filter *)

Unset Implicit Arguments.

Lemma is_true_kleene_and a b :
  is_true (kleene_and a b) = is_true a && is_true b.
Proof. destruct a as [[]|], b as [[]|]; reflexivity. Qed.

Lemma float_ge0 f : SFleb zero f = is_nonnegative (CFloat f).
Proof. destruct f as [s|s| |s m e]; try destruct s; reflexivity. Qed.

(** The comparison [>= 0] holds exactly of the numbers at least zero. *)
Lemma ge0_cells c m :
  ge0 c = Return m -> map is_true m = map is_nonnegative (cells c).
Proof.
  destruct c as [v|v|v|v]; simpl.
  - intros [= <-]. rewrite !map_map. apply map_ext.
    intros z. simpl. now destruct (0 <=? z)%Z.
  - intros [= <-]. rewrite !map_map. apply map_ext.
    intros f. rewrite <- float_ge0. simpl. now destruct (SFleb zero f).
  - destruct (existsb is_str v); [discriminate|].
    intros [= <-]. rewrite !map_map. apply map_ext.
    intros [s| | |z|f|b]; try reflexivity.
    + simpl. now destruct (0 <=? z)%Z.
    + change (is_nonnegative (CObject (OFloat f))) with (is_nonnegative (CFloat f)).
      rewrite <- float_ge0. simpl. now destruct (SFleb zero f).
  - destruct (existsb is_some v); [discriminate|].
    intros [= <-]. rewrite !map_map. reflexivity.
Qed.

Lemma ge0_numeric c :
  is_numeric c = true -> exists m, ge0 c = Return m.
Proof. destruct c; try discriminate; intros _; eexists; reflexivity. Qed.

Lemma column_of_select v name c :
  column_of v name = Some c -> select v name = Return (SeriesSel c).
Proof.
  unfold column_of. destruct (select v name) as [[c'|cs]|e]; try discriminate.
  now intros [= ->].
Qed.

Lemma column_of_mem v name c :
  column_of v name = Some c -> mem name (columns v) = true.
Proof. intros H. now apply column_of_spec in H. Qed.

Lemma validity_columns v p q :
  column_of v "price" = Some p -> column_of v "quantity" = Some q ->
  validity v
  = match ge0 p with
    | Return lhs =>
        match ge0 q with
        | Return rhs => Return (valid_rows lhs rhs v)
        | Raise e => Raise e
        end
    | Raise e => Raise e
    end.
Proof.
  intros Hp Hq. unfold validity.
  now rewrite (column_of_select v "price" p Hp), (column_of_select v "quantity" q Hq).
Qed.

Lemma validity_mask v p q lhs rhs :
  well_formed v = true ->
  column_of v "price" = Some p -> column_of v "quantity" = Some q ->
  ge0 p = Return lhs -> ge0 q = Return rhs ->
  map is_true (mask_and lhs rhs) = map valid (rows v).
Proof.
  intros Hwf Hp Hq Hl Hr. unfold mask_and, valid.
  rewrite map_zip_with.
  rewrite (@zip_with_ext _ _ _ (fun a b => is_true (kleene_and a b))
             (fun a b => is_true a && is_true b) lhs rhs is_true_kleene_and).
  rewrite <- (@zip_with_map_map _ _ _ _ _ andb is_true is_true lhs rhs).
  rewrite (ge0_cells p lhs Hl), (ge0_cells q rhs Hr).
  rewrite <- (@holds_at_column v "price" p is_nonnegative Hwf Hp),
          <- (@holds_at_column v "quantity" q is_nonnegative Hwf Hq).
  apply zip_with_map_same.
Qed.

(** The rows of the filtered table are the valid rows of the input, in
    order. *)
Lemma validity_rows v p q out :
  well_formed v = true ->
  column_of v "price" = Some p -> column_of v "quantity" = Some q ->
  validity v = Return out ->
  rows out = filter valid (rows v).
Proof.
  intros Hwf Hp Hq. rewrite (validity_columns v p q Hp Hq).
  destruct (ge0 p) as [lhs|] eqn:El; [|discriminate].
  destruct (ge0 q) as [rhs|] eqn:Er; [|discriminate].
  intros [= <-]. unfold valid_rows.
  rewrite (validity_mask v p q lhs rhs Hwf Hp Hq El Er).
  rewrite rows_select_rows by (rewrite ?length_map; auto using rows_length).
  apply compress_map_filter.
Qed.

Lemma has_required_columns v p q :
  column_of v "price" = Some p -> column_of v "quantity" = Some q ->
  has_required v = true.
Proof.
  intros Hp Hq. unfold has_required.
  now rewrite (column_of_mem v "price" p Hp), (column_of_mem v "quantity" q Hq).
Qed.

Lemma negative_not_nonnegative c :
  is_negative c = true -> is_nonnegative c = false.
Proof.
  assert (Hint : forall z, (z <? 0)%Z = true -> (0 <=? z)%Z = false)
    by (intros z H; apply Z.ltb_lt in H; now apply Z.leb_gt).
  assert (Hfloat : forall f, float_negative f = true -> float_nonnegative f = false)
    by (intros [s|s| |s m e]; simpl; try discriminate; now intros ->).
  destruct c as [z|f|[s| | |z|f|b]|s]; simpl; try discriminate; auto.
Qed.

Lemma missing_not_nonnegative c :
  isna c = true -> is_nonnegative c = false.
Proof.
  assert (Hfloat : forall f, is_nan f = true -> float_nonnegative f = false)
    by (intros [s|s| |s m e]; simpl; try discriminate; reflexivity).
  destruct c as [z|f|[s| | |z|f|b]|s]; simpl; try discriminate; auto.
Qed.

Lemma holds_at_exclusive name (p p' : cell -> bool) r :
  (forall c, p c = true -> p' c = false) ->
  holds_at name p r = true -> holds_at name p' r = false.
Proof.
  unfold holds_at. intros H. destruct (value_at name r); [apply H | discriminate].
Qed.

Lemma invalid_not_kept v p q out (bad : cell -> bool) :
  (forall c, bad c = true -> is_nonnegative c = false) ->
  well_formed v = true ->
  column_of v "price" = Some p -> column_of v "quantity" = Some q ->
  validity v = Return out ->
  forall r, holds_at "price" bad r = true \/ holds_at "quantity" bad r = true ->
            ~ In r (rows out).
Proof.
  intros Hbad Hwf Hp Hq Hv r Hr Hin.
  rewrite (validity_rows v p q out Hwf Hp Hq Hv) in Hin.
  apply filter_In in Hin as [_ Hvalid]. unfold valid in Hvalid.
  apply andb_true_iff in Hvalid as [H1 H2].
  destruct Hr as [Hr | Hr];
    apply (holds_at_exclusive _ bad is_nonnegative r Hbad) in Hr; congruence.
Qed.

Lemma remove_invalid_rows_numeric h r df p q :
  nth_error h r = Some df ->
  column_of df "price" = Some p -> column_of df "quantity" = Some q ->
  is_numeric p = true -> is_numeric q = true ->
  exists out, table_of (remove_invalid_rows r h) = Return out.
Proof.
  intros Hr Hp Hq Np Nq.
  rewrite (table_of_remove_invalid_rows h r Hr), (has_required_columns df p q Hp Hq),
    (validity_columns df p q Hp Hq).
  destruct (ge0_numeric p Np) as [lhs ->], (ge0_numeric q Nq) as [rhs ->].
  eexists. reflexivity.
Qed.

(** C1: on a table whose columns "price" and "quantity" are columns of
    numbers the Validity Filter returns a table; and whenever it
    returns one, every row of it has a price at least zero and a
    quantity at least zero, and no row of the input with a price below
    zero or a quantity below zero is among its rows. *)
Theorem remove_invalid_rows_nonnegative
  (h : heap) (r : ref) (df : DataFrame) (p q : column) :
  nth_error h r = Some df ->
  well_formed df = true ->
  column_of df "price" = Some p ->
  column_of df "quantity" = Some q ->
  (is_numeric p = true -> is_numeric q = true ->
   exists out, table_of (remove_invalid_rows r h) = Return out)
  /\ (forall out,
        table_of (remove_invalid_rows r h) = Return out ->
        (forall row, In row (rows out) ->
           holds_at "price" is_nonnegative row = true
           /\ holds_at "quantity" is_nonnegative row = true)
        /\ (forall row, In row (rows df) ->
              holds_at "price" is_negative row = true
              \/ holds_at "quantity" is_negative row = true ->
              ~ In row (rows out))).
Proof.
  intros Hr Hwf Hp Hq.
  split; [exact (remove_invalid_rows_numeric h r df p q Hr Hp Hq)|].
  rewrite (table_of_remove_invalid_rows h r Hr), (has_required_columns df p q Hp Hq).
  intros out Hv. split.
  - intros row Hin. rewrite (validity_rows df p q out Hwf Hp Hq Hv) in Hin.
    apply filter_In in Hin as [_ Hvalid]. now apply andb_true_iff in Hvalid.
  - intros row _.
    exact (invalid_not_kept df p q out is_negative negative_not_nonnegative
             Hwf Hp Hq Hv row).
Qed.

Lemma remove_invalid_rows_nonnegative_witness :
  (is_numeric (Float64 [ten; S754_nan; minus_three]) = true ->
   is_numeric (Int64 [2; 1; 4]%Z) = true ->
   exists out, table_of (remove_invalid_rows 0 [sample_clean]) = Return out)
  /\ (forall out,
        table_of (remove_invalid_rows 0 [sample_clean]) = Return out ->
        (forall row, In row (rows out) ->
           holds_at "price" is_nonnegative row = true
           /\ holds_at "quantity" is_nonnegative row = true)
        /\ (forall row, In row (rows sample_clean) ->
              holds_at "price" is_negative row = true
              \/ holds_at "quantity" is_negative row = true ->
              ~ In row (rows out))).
Proof.
  apply (remove_invalid_rows_nonnegative [sample_clean] 0 sample_clean
           (Float64 [ten; S754_nan; minus_three]) (Int64 [2; 1; 4]%Z));
    reflexivity.
Defined.

Example remove_invalid_rows_sample :
  table_of (remove_invalid_rows 0 [sample_clean])
  = Return (mkDataFrame ["product"; "price"; "quantity"] [0%Z]
              [Object [OStr "  tea "]; Float64 [ten]; Int64 [2%Z]]).
Proof. reflexivity. Qed.

(** C2: the Validity Filter takes a missing price or quantity as
    failing the comparison: [>= 0] is not true of a missing value, and
    whenever the filter returns a table, no row of the input whose
    price or quantity is missing is among its rows; the input need not
    have been through the Required-Value Filter. *)
Theorem remove_invalid_rows_excludes_missing
  (h : heap) (r : ref) (df : DataFrame) (p q : column) :
  nth_error h r = Some df ->
  well_formed df = true ->
  column_of df "price" = Some p ->
  column_of df "quantity" = Some q ->
  (forall c m i x,
      ge0 c = Return m -> nth_error (cells c) i = Some x -> isna x = true ->
      option_map is_true (nth_error m i) = Some false)
  /\ (forall out,
        table_of (remove_invalid_rows r h) = Return out ->
        forall row, In row (rows df) ->
          holds_at "price" isna row = true \/ holds_at "quantity" isna row = true ->
          ~ In row (rows out)).
Proof.
  intros Hr Hwf Hp Hq. split.
  - intros c m i x Hm Hx Hna.
    rewrite <- nth_error_map, (ge0_cells c m Hm), nth_error_map, Hx. simpl.
    now rewrite (missing_not_nonnegative x Hna).
  - rewrite (table_of_remove_invalid_rows h r Hr), (has_required_columns df p q Hp Hq).
    intros out Hv row _.
    exact (invalid_not_kept df p q out isna missing_not_nonnegative Hwf Hp Hq Hv row).
Qed.

Lemma remove_invalid_rows_excludes_missing_witness :
  (forall c m i x,
      ge0 c = Return m -> nth_error (cells c) i = Some x -> isna x = true ->
      option_map is_true (nth_error m i) = Some false)
  /\ (forall out,
        table_of (remove_invalid_rows 0 [sample_clean]) = Return out ->
        forall row, In row (rows sample_clean) ->
          holds_at "price" isna row = true \/ holds_at "quantity" isna row = true ->
          ~ In row (rows out)).
Proof.
  apply (remove_invalid_rows_excludes_missing [sample_clean] 0 sample_clean
           (Float64 [ten; S754_nan; minus_three]) (Int64 [2; 1; 4]%Z));
    reflexivity.
Defined.

(** ** The Validity Filter after the Required-Value Filter *)

Lemma existsb_compress (X : Type) (f : X -> bool) keep l :
  existsb f l = false -> existsb f (compress keep l) = false.
Proof.
  revert l. induction keep as [|b keep IH]; intros [|x l]; simpl; try reflexivity.
  intros H. apply orb_false_iff in H as [Hx Hl].
  destruct b; simpl; [rewrite Hx|]; now apply IH.
Qed.

Lemma ge0_take_column keep c m :
  ge0 c = Return m -> ge0 (take_column keep c) = Return (compress keep m).
Proof.
  destruct c as [v|v|v|v]; simpl.
  - intros [= <-]. now rewrite compress_map.
  - intros [= <-]. now rewrite compress_map.
  - destruct (existsb is_str v) eqn:E; [discriminate|].
    intros [= <-]. now rewrite (existsb_compress _ is_str keep v E), compress_map.
  - destruct (existsb is_some v) eqn:E; [discriminate|].
    intros [= <-]. now rewrite (existsb_compress _ is_some keep v E), compress_map.
Qed.

Lemma validity_mask_cells p q lhs rhs :
  ge0 p = Return lhs -> ge0 q = Return rhs ->
  map is_true (mask_and lhs rhs)
  = zip_with (fun a b => is_nonnegative a && is_nonnegative b) (cells p) (cells q).
Proof.
  intros Hl Hr. unfold mask_and. rewrite map_zip_with.
  rewrite (@zip_with_ext _ _ _ (fun a b => is_true (kleene_and a b))
             (fun a b => is_true a && is_true b) lhs rhs is_true_kleene_and).
  rewrite <- (@zip_with_map_map _ _ _ _ _ andb is_true is_true lhs rhs).
  rewrite (ge0_cells p lhs Hl), (ge0_cells q rhs Hr).
  apply zip_with_map_map.
Qed.

Lemma dropna_mask_columns v p q :
  well_formed v = true ->
  column_of v "price" = Some p -> column_of v "quantity" = Some q ->
  dropna_mask v required_columns
  = zip_with (fun a b => negb (isna a) && negb (isna b)) (cells p) (cells q).
Proof.
  intros Hwf Hp Hq.
  pose proof (@column_of_shape v "quantity" q Hwf Hq) as Hlen.
  apply column_of_spec in Hp as [_ Hp]. apply column_of_spec in Hq as [_ Hq].
  unfold dropna_mask, required_columns. cbn [flat_map]. rewrite Hp, Hq. simpl.
  rewrite zip_with_and_true by (unfold notna_column; now rewrite length_map).
  unfold notna_column. apply zip_with_map_map.
Qed.

Lemma select_rows_select_rows m1 m3 v :
  well_formed v = true ->
  length m1 = length (index v) -> length m3 = length (index v) ->
  (forall i, nth i m3 false = true -> nth i m1 false = true) ->
  select_rows (compress m1 m3) (select_rows m1 v) = select_rows m3 v.
Proof.
  intros Hwf H1 H3 Himp. destruct (well_formed_shape v Hwf) as [_ Hs].
  unfold select_rows. simpl. f_equal.
  - now apply compress_compress.
  - rewrite map_map. apply map_ext_in. intros c Hin.
    rewrite Forall_forall in Hs. specialize (Hs c Hin).
    destruct c as [l|l|l|l]; simpl in *; rewrite length_map in Hs; f_equal;
      (apply compress_compress; [congruence | congruence | exact Himp]).
Qed.

Lemma validity_without_missing v p q out :
  well_formed v = true ->
  column_of v "price" = Some p -> column_of v "quantity" = Some q ->
  validity v = Return out ->
  validity (without_missing v) = Return out.
Proof.
  intros Hwf Hp Hq. rewrite (validity_columns v p q Hp Hq).
  destruct (ge0 p) as [lhs|] eqn:El; [|discriminate].
  destruct (ge0 q) as [rhs|] eqn:Er; [|discriminate].
  intros [= <-]. unfold without_missing.
  set (m1 := dropna_mask v required_columns).
  rewrite (validity_columns (select_rows m1 v) (take_column m1 p) (take_column m1 q)
             (column_of_select_rows m1 v "price" Hp)
             (column_of_select_rows m1 v "quantity" Hq)).
  rewrite (ge0_take_column m1 p lhs El), (ge0_take_column m1 q rhs Er).
  f_equal. unfold valid_rows, mask_and.
  rewrite <- compress_zip_with, <- compress_map.
  assert (Hn1 : length m1 = length (index v)).
  { unfold m1. rewrite (dropna_mask_rows v Hwf), length_map. now apply rows_length. }
  apply select_rows_select_rows; [exact Hwf | exact Hn1 | |].
  - fold (mask_and lhs rhs).
    rewrite (validity_mask v p q lhs rhs Hwf Hp Hq El Er), length_map.
    now apply rows_length.
  - fold (mask_and lhs rhs). rewrite (validity_mask_cells p q lhs rhs El Er).
    unfold m1. rewrite (dropna_mask_columns v p q Hwf Hp Hq).
    apply nth_zip_with_imp. intros a b H.
    apply andb_true_iff in H as [Ha Hb].
    destruct (isna a) eqn:Na;
      [rewrite (missing_not_nonnegative a Na) in Ha; discriminate|].
    destruct (isna b) eqn:Nb;
      [rewrite (missing_not_nonnegative b Nb) in Hb; discriminate|].
    reflexivity.
Qed.

Lemma table_of_and_then_filters h r df :
  nth_error h r = Some df ->
  table_of (and_then handle_missing_values remove_invalid_rows r h)
  = if has_required df then validity (without_missing df)
    else Raise (missing_column_error df).
Proof.
  intros Hr. unfold and_then, bind.
  rewrite handle_missing_values_run, (nth_error_nth h r Hr).
  destruct (has_required df) eqn:E; [|reflexivity].
  rewrite (table_of_remove_invalid_rows (h ++ [df; without_missing df])
             (S (length h)) (nth_error_new2 h df (without_missing df))).
  unfold has_required in *. simpl. now rewrite E.
Qed.

(** C10, as the code has it: on a table with the columns "price" and
    "quantity", the Validity Filter applied alone returns a table
    whenever both are columns of numbers; and whenever it returns a
    table, the Validity Filter applied to what the Required-Value
    Filter returns gives that same table. *)
Theorem remove_invalid_rows_absorbs_handle_missing_values
  (h : heap) (r : ref) (df : DataFrame) (p q : column) :
  nth_error h r = Some df ->
  well_formed df = true ->
  column_of df "price" = Some p ->
  column_of df "quantity" = Some q ->
  (is_numeric p = true -> is_numeric q = true ->
   exists out, table_of (remove_invalid_rows r h) = Return out)
  /\ (forall out,
        table_of (remove_invalid_rows r h) = Return out ->
        table_of (and_then handle_missing_values remove_invalid_rows r h)
        = Return out).
Proof.
  intros Hr Hwf Hp Hq.
  split; [exact (remove_invalid_rows_numeric h r df p q Hr Hp Hq)|].
  rewrite (table_of_remove_invalid_rows h r Hr), (table_of_and_then_filters h r df Hr),
    (has_required_columns df p q Hp Hq).
  intros out. exact (validity_without_missing df p q out Hwf Hp Hq).
Qed.

Lemma remove_invalid_rows_absorbs_handle_missing_values_witness :
  (is_numeric (Float64 [ten; S754_nan; minus_three]) = true ->
   is_numeric (Int64 [2; 1; 4]%Z) = true ->
   exists out, table_of (remove_invalid_rows 0 [sample_clean]) = Return out)
  /\ (forall out,
        table_of (remove_invalid_rows 0 [sample_clean]) = Return out ->
        table_of (and_then handle_missing_values remove_invalid_rows 0 [sample_clean])
        = Return out).
Proof.
  apply (remove_invalid_rows_absorbs_handle_missing_values
           [sample_clean] 0 sample_clean
           (Float64 [ten; S754_nan; minus_three]) (Int64 [2; 1; 4]%Z));
    reflexivity.
Defined.

Example filters_sample :
  table_of (and_then handle_missing_values remove_invalid_rows 0 [sample_clean])
  = table_of (remove_invalid_rows 0 [sample_clean]).
Proof. reflexivity. Qed.

(** C10, as stated, fails on [text_price]: the Validity Filter alone
    raises a TypeError at the comparison of a text price with 0, while
    after the Required-Value Filter, which drops the only row for its
    missing quantity, it returns the empty table. *)
Lemma remove_invalid_rows_alone_raises :
  well_formed text_price = true
  /\ column_of text_price "price" = Some (Object [OStr "abc"])
  /\ column_of text_price "quantity" = Some (Float64 [S754_nan])
  /\ table_of (remove_invalid_rows 0 [text_price]) = Raise TypeError
  /\ table_of (and_then handle_missing_values remove_invalid_rows 0 [text_price])
     = Return (mkDataFrame ["price"; "quantity"] [] [Object []; Float64 []])
  /\ table_of (and_then handle_missing_values remove_invalid_rows 0 [text_price])
     <> table_of (remove_invalid_rows 0 [text_price]).
Proof. repeat split. discriminate. Qed.

(** ** The Text Trimmer *)

Lemma count_app key l1 l2 : count key (l1 ++ l2) = count key l1 + count key l2.
Proof.
  induction l1 as [|l l1 IH]; simpl; [reflexivity|].
  destruct (String.eqb l key); simpl; now rewrite IH.
Qed.

Lemma mem_count key labels : mem key labels = true <-> count key labels <> 0.
Proof.
  induction labels as [|l ls IH]; simpl; [split; [discriminate | congruence]|].
  destruct (String.eqb l key); simpl; [split; [discriminate | reflexivity] | exact IH].
Qed.

Lemma labelled_count key labels cs :
  length labels = length cs -> length (labelled key labels cs) = count key labels.
Proof.
  revert cs. induction labels as [|l ls IH]; intros [|c cs] H; simpl in *;
    try reflexivity; try discriminate.
  destruct (String.eqb l key); simpl; [f_equal|]; apply IH; congruence.
Qed.

Lemma labelled_app key l1 l2 c1 c2 :
  length l1 = length c1 ->
  labelled key (l1 ++ l2) (c1 ++ c2) = labelled key l1 c1 ++ labelled key l2 c2.
Proof.
  revert c1. induction l1 as [|l l1 IH]; intros [|c c1] H; simpl in *;
    try reflexivity; try discriminate.
  destruct (String.eqb l key); simpl; [f_equal|]; apply IH; congruence.
Qed.

Lemma replace_labelled_app key c l1 l2 c1 c2 :
  length l1 = length c1 ->
  replace_labelled key c (l1 ++ l2) (c1 ++ c2)
  = replace_labelled key c l1 c1 ++ replace_labelled key c l2 c2.
Proof.
  revert c1. induction l1 as [|l l1 IH]; intros [|c' c1] H; simpl in *;
    try reflexivity; try discriminate.
  f_equal. apply IH. congruence.
Qed.

Lemma replace_labelled_length key c labels cs :
  length (replace_labelled key c labels cs) = length cs.
Proof.
  revert cs. induction labels as [|l ls IH]; intros [|c' cs]; simpl;
    try reflexivity.
  now rewrite IH.
Qed.

Lemma labelled_none key labels cs :
  count key labels = 0 -> labelled key labels cs = [].
Proof.
  revert cs. induction labels as [|l ls IH]; intros [|c cs] H; simpl in *;
    try reflexivity.
  destruct (String.eqb l key); [discriminate | now apply IH].
Qed.

Lemma replace_labelled_none key c labels cs :
  count key labels = 0 -> replace_labelled key c labels cs = cs.
Proof.
  revert cs. induction labels as [|l ls IH]; intros [|c' cs] H; simpl in *;
    try reflexivity.
  destruct (String.eqb l key); [discriminate | f_equal; now apply IH].
Qed.

Lemma trim_column_not_object c : is_object (trim_column c) = false.
Proof. now destruct c. Qed.

Lemma object_labels_trimmed labels cs :
  object_labels labels (map trim_column cs) = [].
Proof.
  revert cs. induction labels as [|l ls IH]; intros [|c cs]; simpl; try reflexivity.
  now rewrite trim_column_not_object.
Qed.

(** The loop, on a frame whose first columns are done: it trims the
    object columns that remain, provided the label of each occurs once
    among all the labels. *)
Lemma strip_loop_trims idx l2 :
  forall c2 l1 c1,
    length l1 = length c1 -> length l2 = length c2 ->
    (forall l, In l (object_labels l2 c2) -> count l (l1 ++ l2) = 1) ->
    strip_loop (mkDataFrame (l1 ++ l2) idx (map trim_column c1 ++ c2))
               (object_labels l2 c2)
    = Return (mkDataFrame (l1 ++ l2) idx (map trim_column (c1 ++ c2))).
Proof.
  induction l2 as [|l l2 IH]; intros [|c c2] l1 c1 H1 H2 Hu; try discriminate H2.
  - simpl. now rewrite !app_nil_r.
  - assert (Hl : l1 ++ l :: l2 = (l1 ++ [l]) ++ l2) by now rewrite <- app_assoc.
    assert (Hc : c1 ++ c :: c2 = (c1 ++ [c]) ++ c2) by now rewrite <- app_assoc.
    assert (H1' : length (l1 ++ [l]) = length (c1 ++ [c]))
      by (rewrite !length_app; simpl; lia).
    assert (H2' : length l2 = length c2) by (simpl in H2; lia).
    destruct (is_object c) eqn:Eo.
    + destruct c as [| |o|]; try discriminate Eo.
      change (object_labels (l :: l2) (Object o :: c2))
        with (l :: object_labels l2 c2) in *.
      pose proof (Hu l (or_introl eq_refl)) as Hcount.
      rewrite count_app in Hcount. simpl in Hcount.
      rewrite String.eqb_refl in Hcount.
      assert (Hn1 : count l l1 = 0) by lia.
      assert (Hn2 : count l l2 = 0) by lia.
      cbn [strip_loop]. unfold strip_step, select. cbn [columns data index].
      assert (Hmem : mem l (l1 ++ l :: l2) = true).
      { apply mem_count. rewrite count_app. simpl. rewrite String.eqb_refl. lia. }
      rewrite Hmem.
      rewrite labelled_app by (now rewrite length_map).
      rewrite (labelled_none l l1 _ Hn1). simpl. rewrite String.eqb_refl.
      rewrite (labelled_none l l2 _ Hn2). simpl.
      unfold set_column. cbn [columns data index]. rewrite Hmem.
      rewrite replace_labelled_app by (now rewrite length_map).
      rewrite (replace_labelled_none l _ l1 _ Hn1). simpl.
      rewrite String.eqb_refl, (replace_labelled_none l _ l2 _ Hn2).
      rewrite Hl, Hc.
      replace (map trim_column c1 ++ str_strip (map to_string_dtype o) :: c2)
        with (map trim_column (c1 ++ [Object o]) ++ c2)
        by (rewrite map_app, <- app_assoc; reflexivity).
      apply IH; [exact H1' | exact H2' |].
      intros l' Hin. rewrite <- Hl. apply Hu. now right.
    + replace (object_labels (l :: l2) (c :: c2)) with (object_labels l2 c2) in *
        by (simpl; now rewrite Eo).
      rewrite Hl, Hc.
      replace (map trim_column c1 ++ c :: c2)
        with (map trim_column (c1 ++ [c]) ++ c2)
        by (rewrite map_app, <- app_assoc; destruct c; try discriminate Eo; reflexivity).
      apply IH; [exact H1' | exact H2' |].
      intros l' Hin. rewrite <- Hl. now apply Hu.
Qed.

Lemma text_labels_unique_spec v :
  text_labels_unique v = true <->
  forall l, In l (object_labels (columns v) (data v)) -> count l (columns v) = 1.
Proof.
  unfold text_labels_unique. rewrite forallb_forall.
  split; intros H l Hin; [apply Nat.eqb_eq | apply Nat.eqb_eq]; now apply H.
Qed.

Lemma strip_loop_unique v :
  well_formed v = true -> text_labels_unique v = true ->
  strip_loop v (object_labels (columns v) (data v)) = Return (trimmed_frame v).
Proof.
  intros Hwf Hu. destruct (well_formed_shape v Hwf) as [Hl _].
  destruct v as [labels idx cs]. simpl in *.
  apply (strip_loop_trims idx labels cs [] []); [reflexivity | congruence |].
  exact (proj1 (text_labels_unique_spec (mkDataFrame labels idx cs)) Hu).
Qed.

Lemma strip_step_returns v l v' :
  length (data v) = length (columns v) ->
  strip_step v l = Return v' ->
  count l (columns v) = 1
  /\ columns v' = columns v
  /\ length (data v') = length (columns v').
Proof.
  intros Hlen. unfold strip_step, select.
  destruct (mem l (columns v)) eqn:Em; [|discriminate].
  pose proof (labelled_count l (columns v) (data v) (eq_sym Hlen)) as Hc.
  assert (Hset : forall s, set_column v l s
            = mkDataFrame (columns v) (index v)
                          (replace_labelled l s (columns v) (data v)))
    by (intros s; unfold set_column; now rewrite Em).
  destruct (labelled l (columns v) (data v)) as [|c [|c' cs]]; simpl in *;
    try discriminate.
  destruct c; simpl; try discriminate; intros [= <-]; rewrite Hset; simpl;
    rewrite replace_labelled_length; auto.
Qed.

Lemma strip_loop_returns v ls v' :
  length (data v) = length (columns v) ->
  strip_loop v ls = Return v' ->
  forall l, In l ls -> count l (columns v) = 1.
Proof.
  revert v. induction ls as [|k ls IH]; intros v Hlen Hrun l Hin; [destruct Hin|].
  simpl in Hrun. destruct (strip_step v k) as [v1|e] eqn:Es; [|discriminate].
  destruct (strip_step_returns v k v1 Hlen Es) as [Hk [Hcols Hlen1]].
  destruct Hin as [<- | Hin]; [exact Hk|].
  rewrite <- Hcols. exact (IH v1 Hlen1 Hrun l Hin).
Qed.

(** What a run of the Text Trimmer gives: the trimmed frame, or an
    exception when a text column shares its label. *)
Lemma table_of_strip_whitespace_from_strings h r df :
  nth_error h r = Some df ->
  well_formed df = true ->
  (text_labels_unique df = true ->
   strip_whitespace_from_strings r h = (Return (length h), h ++ [trimmed_frame df]))
  /\ (forall out, table_of (strip_whitespace_from_strings r h) = Return out ->
        text_labels_unique df = true).
Proof.
  intros Hr Hwf.
  destruct (strip_whitespace_from_strings_run h r) as [w [Hrun Hw]].
  rewrite (nth_error_nth h r Hr) in Hrun, Hw. rewrite Hrun. split.
  - intros Hu. rewrite (strip_loop_unique df Hwf Hu) in *.
    now rewrite (Hw (trimmed_frame df) eq_refl).
  - intros out Hout.
    destruct (strip_loop df (object_labels (columns df) (data df))) as [v'|e] eqn:El;
      [|discriminate Hout].
    apply text_labels_unique_spec.
    destruct (well_formed_shape df Hwf) as [Hlen _].
    exact (strip_loop_returns df _ v' Hlen El).
Qed.

(** C7: the Text Trimmer is idempotent: when it has returned a table,
    trimming that table again returns a table equal to it, and leaves
    it as it was. *)
Theorem strip_whitespace_from_strings_idempotent
  (h : heap) (r : ref) (df : DataFrame) (r1 : ref) (h1 : heap) (once : DataFrame) :
  nth_error h r = Some df ->
  well_formed df = true ->
  strip_whitespace_from_strings r h = (Return r1, h1) ->
  nth_error h1 r1 = Some once ->
  exists r2 h2,
    strip_whitespace_from_strings r1 h1 = (Return r2, h2)
    /\ nth_error h2 r2 = Some once
    /\ nth_error h2 r1 = Some once.
Proof.
  intros Hr Hwf Hrun Honce.
  destruct (table_of_strip_whitespace_from_strings h r df Hr Hwf) as [Hform Hunique].
  assert (Hu : text_labels_unique df = true).
  { apply (Hunique once). unfold table_of. now rewrite Hrun, Honce. }
  rewrite (Hform Hu) in Hrun. injection Hrun as <- <-.
  rewrite nth_error_new in Honce. injection Honce as <-.
  destruct (strip_whitespace_from_strings_run (h ++ [trimmed_frame df]) (length h))
    as [w [Hrun2 Hw]].
  rewrite nth_new in Hrun2, Hw.
  change (columns (trimmed_frame df)) with (columns df) in Hrun2, Hw.
  change (data (trimmed_frame df)) with (map trim_column (data df)) in Hrun2, Hw.
  rewrite object_labels_trimmed in Hrun2, Hw.
  cbn [strip_loop] in Hrun2, Hw. rewrite <- (Hw (trimmed_frame df) eq_refl) in *.
  eexists _, _. split; [exact Hrun2|]. split.
  - apply nth_error_new.
  - apply preserves_app, nth_error_new.
Qed.

Lemma strip_whitespace_from_strings_idempotent_witness :
  exists r2 h2,
    strip_whitespace_from_strings 1 [sample; trimmed_frame sample] = (Return r2, h2)
    /\ nth_error h2 r2 = Some (trimmed_frame sample)
    /\ nth_error h2 1 = Some (trimmed_frame sample).
Proof.
  apply (strip_whitespace_from_strings_idempotent
           [sample] 0 sample 1 [sample; trimmed_frame sample] (trimmed_frame sample));
    reflexivity.
Defined.

Lemma trim_column_values c :
  is_object c = true ->
  map value_of (cells (trim_column c))
  = map (fun x => text_of_value (value_of x)) (cells c).
Proof.
  destruct c as [| |o|]; try discriminate. intros _. simpl.
  rewrite !map_map. apply map_ext.
  intros [s| | |z|f|b]; try reflexivity.
  simpl. now destruct (is_nan f).
Qed.

Lemma trim_column_other c : is_object c = false -> trim_column c = c.
Proof. destruct c; try discriminate; reflexivity. Qed.

(** C8, as the code has it: on a table in which no column of dtype
    object shares its label with another column, the Text Trimmer
    returns a table with the same labels and index in which every
    value of a column of dtype object (the columns the code takes as
    text) is: for a text, that text with its leading and trailing
    whitespace stripped; for a missing value, a missing value; for a
    number or a boolean, its text [str(x)].  Every column of another
    dtype is the column of the input.  A text that is all whitespace
    becomes the empty text, not a missing value. *)
Theorem strip_whitespace_from_strings_trims (h : heap) (r : ref) (df : DataFrame) :
  nth_error h r = Some df ->
  well_formed df = true ->
  text_labels_unique df = true ->
  exists out,
    table_of (strip_whitespace_from_strings r h) = Return out
    /\ columns out = columns df
    /\ index out = index df
    /\ length (data out) = length (data df)
    /\ (forall j c, nth_error (data df) j = Some c ->
          exists c', nth_error (data out) j = Some c'
            /\ (is_object c = true ->
                map value_of (cells c')
                = map (fun x => text_of_value (value_of x)) (cells c))
            /\ (is_object c = false -> c' = c))
    /\ (forall s, all_space s = true -> text_of_value (Text s) = Text "")
    /\ text_of_value Missing = Missing.
Proof.
  intros Hr Hwf Hu.
  destruct (table_of_strip_whitespace_from_strings h r df Hr Hwf) as [Hform _].
  rewrite (Hform Hu). exists (trimmed_frame df).
  split; [unfold table_of; now rewrite nth_error_new|].
  split; [reflexivity|]. split; [reflexivity|].
  split; [apply length_map|]. split; [|split; [|reflexivity]].
  - intros j c Hj. exists (trim_column c).
    split; [simpl; now rewrite nth_error_map, Hj|].
    split; [apply trim_column_values | apply trim_column_other].
  - intros s Hs. simpl. now rewrite (@PyStrFacts.all_space_strip s Hs).
Qed.

Lemma strip_whitespace_from_strings_trims_witness :
  exists out,
    table_of (strip_whitespace_from_strings 0 [sample]) = Return out
    /\ columns out = columns sample
    /\ index out = index sample
    /\ length (data out) = length (data sample)
    /\ (forall j c, nth_error (data sample) j = Some c ->
          exists c', nth_error (data out) j = Some c'
            /\ (is_object c = true ->
                map value_of (cells c')
                = map (fun x => text_of_value (value_of x)) (cells c))
            /\ (is_object c = false -> c' = c))
    /\ (forall s, all_space s = true -> text_of_value (Text s) = Text "")
    /\ text_of_value Missing = Missing.
Proof.
  apply (strip_whitespace_from_strings_trims [sample] 0 sample); reflexivity.
Defined.

(** C8, as stated, fails on [flags], whose one column has dtype object
    and holds [True] and a missing value: no label is shared and the
    Text Trimmer returns a table, but [.astype("string")] has turned the
    boolean into the text "True", which is not the value of the input
    with its whitespace stripped. *)
Lemma strip_whitespace_from_strings_number_to_text :
  well_formed flags = true
  /\ text_labels_unique flags = true
  /\ table_of (strip_whitespace_from_strings 0 [flags])
     = Return (mkDataFrame ["in_stock"] [0; 1]%Z [StringDtype [Some "True"; None]])
  /\ value_of (CObject (OBool true)) = Boolean true
  /\ value_of (CString (Some "True")) = Text "True"
  /\ value_of (CString (Some "True")) <> trim_value (value_of (CObject (OBool true)))
  /\ ~ (forall out c c',
          table_of (strip_whitespace_from_strings 0 [flags]) = Return out ->
          nth_error (data flags) 0 = Some c ->
          nth_error (data out) 0 = Some c' ->
          map value_of (cells c') = map (fun x => trim_value (value_of x)) (cells c)).
Proof.
  repeat split; try discriminate.
  intros H.
  specialize (H (mkDataFrame ["in_stock"] [0; 1]%Z [StringDtype [Some "True"; None]])
                (Object [OBool true; ONaN]) (StringDtype [Some "True"; None])
                eq_refl eq_refl eq_refl).
  discriminate H.
Qed.

Example strip_whitespace_from_strings_sample :
  table_of (strip_whitespace_from_strings 0 [sample])
  = Return (mkDataFrame [" Product "; "Price"; "Quantity "] [0; 1; 2]%Z
              [StringDtype [Some "tea"; None; Some "mug"];
               Float64 [ten; S754_nan; minus_three];
               Int64 [2; 1; 4]%Z]).
Proof. reflexivity. Qed.

Example strip_mixed_objects :
  table_of (strip_whitespace_from_strings 0
              [mkDataFrame ["x"] [0; 1; 2; 3; 4]%Z
                 [Object [OInt 5; OFloat (S754_finite false 5 (-1)); OBool false;
                          OStr " a "; ONone]]])
  = Return (mkDataFrame ["x"] [0; 1; 2; 3; 4]%Z
              [StringDtype [Some "5"; Some "2.5"; Some "False"; Some "a"; None]]).
Proof. vm_compute. reflexivity. Qed.

Example strip_blank_text :
  table_of (strip_whitespace_from_strings 0
              [mkDataFrame ["note"] [0%Z] [Object [OStr "   "]]])
  = Return (mkDataFrame ["note"] [0%Z] [StringDtype [Some ""]]).
Proof. reflexivity. Qed.

(** On [two_names], the table the Column Normalizer returns for the
    headers of [raw_names], both text columns have the label "name":
    [df["name"]] is then a frame, which has no [.str], and the Text
    Trimmer raises an AttributeError. *)
Lemma strip_whitespace_from_strings_shared_label :
  well_formed two_names = true
  /\ table_of (clean_column_names 0 [raw_names]) = Return two_names
  /\ table_of (strip_whitespace_from_strings 0 [two_names]) = Raise AttributeError
  /\ ~ (exists out,
          table_of (strip_whitespace_from_strings 0 [two_names]) = Return out).
Proof.
  repeat split. intros [out H]. discriminate H.
Qed.

(** * Further properties of the stages *)

(** ** Labels after the Column Normalizer *)

Lemma replace_no_space s : has_char " " (PyStr.replace " " "_" s) = false.
Proof.
  induction s as [|c s IH]; [reflexivity|].
  simpl. rewrite IH, orb_false_r.
  destruct c as [[] [] [] [] [] [] [] []]; reflexivity.
Qed.

Lemma normalize_canonical col : canonical (normalize col).
Proof.
  split; [apply normalize_trimmed|]. split.
  - apply replace_no_space.
  - unfold normalize. apply PyStrFacts.lower_underscored.
Qed.

Lemma table_of_clean_column_names h r df :
  nth_error h r = Some df ->
  table_of (clean_column_names r h) = Return (renamed df).
Proof.
  intros Hr. rewrite clean_column_names_run, (nth_error_nth h r Hr).
  unfold table_of. now rewrite nth_error_new.
Qed.

(** Every label of the table the Column Normalizer returns is in
    canonical form: no whitespace at its ends, no space character, and
    lowercase. *)
Theorem clean_column_names_canonical (h : heap) (r : ref) (df : DataFrame) :
  nth_error h r = Some df ->
  exists out,
    table_of (clean_column_names r h) = Return out
    /\ Forall canonical (columns out).
Proof.
  intros Hr. rewrite (table_of_clean_column_names h r df Hr).
  exists (renamed df). split; [reflexivity|].
  unfold renamed. simpl. apply Forall_forall. intros l Hin.
  apply in_map_iff in Hin as [col [<- _]]. apply normalize_canonical.
Qed.

Lemma clean_column_names_canonical_witness :
  exists out,
    table_of (clean_column_names 0 [sample]) = Return out
    /\ Forall canonical (columns out).
Proof. apply (clean_column_names_canonical [sample] 0 sample). reflexivity. Defined.

(** ** What [strip] removes *)

Lemma all_space_append a b :
  all_space a = true -> all_space b = true -> all_space (a ++ b)%string = true.
Proof.
  intros Ha Hb. induction a as [|c a IH]; [exact Hb|].
  simpl in *. apply andb_true_iff in Ha as [Hc Ha]. now rewrite Hc, IH.
Qed.

Lemma lstrip_prefix s :
  exists a, s = (a ++ PyStr.lstrip s)%string /\ all_space a = true.
Proof.
  induction s as [|c s [a [Hs Ha]]]; [now exists EmptyString|].
  simpl. destruct (PyStr.isspace c) eqn:Ec.
  - exists (String c a). simpl. now rewrite Ec, Ha, <- Hs.
  - now exists EmptyString.
Qed.

Lemma rstrip_suffix s :
  exists b, s = (PyStr.rstrip s ++ b)%string /\ all_space b = true.
Proof.
  induction s as [|c s [b [Hs Hb]]]; [now exists EmptyString|].
  simpl. destruct (PyStr.rstrip s) as [|d t] eqn:Er.
  - simpl in Hs. subst b. destruct (PyStr.isspace c) eqn:Ec.
    + exists (String c s). simpl. now rewrite Ec, Hb.
    + now exists s.
  - exists b. simpl in *. now rewrite <- Hs.
Qed.

(** [strip] takes whitespace off the two ends and nothing else. *)
Lemma strip_ends s :
  exists a b,
    s = (a ++ PyStr.strip s ++ b)%string
    /\ all_space a = true /\ all_space b = true.
Proof.
  destruct (lstrip_prefix s) as [a [Hs Ha]].
  destruct (rstrip_suffix (PyStr.lstrip s)) as [b [Hl Hb]].
  exists a, b. unfold PyStr.strip. now rewrite <- Hl.
Qed.

(** ** More on the Text Trimmer *)

(** A text value of a text-typed column comes out without whitespace
    at its ends and otherwise as it was: what was removed is whitespace
    before it and whitespace after it. *)
Theorem strip_whitespace_from_strings_keeps_interior
  (h : heap) (r : ref) (df : DataFrame) (j i : nat) (v : list pyobj) (s : string) :
  nth_error h r = Some df ->
  well_formed df = true ->
  text_labels_unique df = true ->
  nth_error (data df) j = Some (Object v) ->
  nth_error v i = Some (OStr s) ->
  exists out v' s',
    table_of (strip_whitespace_from_strings r h) = Return out
    /\ nth_error (data out) j = Some (StringDtype v')
    /\ nth_error v' i = Some (Some s')
    /\ PyStr.trimmed s'
    /\ exists a b,
         s = (a ++ s' ++ b)%string /\ all_space a = true /\ all_space b = true.
Proof.
  intros Hr Hwf Hu Hj Hi.
  destruct (table_of_strip_whitespace_from_strings h r df Hr Hwf) as [Hform _].
  rewrite (Hform Hu).
  exists (trimmed_frame df),
    (map (option_map PyStr.strip) (map to_string_dtype v)), (PyStr.strip s).
  split; [unfold table_of; now rewrite nth_error_new|].
  split; [simpl; now rewrite nth_error_map, Hj|].
  split; [now rewrite !nth_error_map, Hi|].
  split; [apply PyStrFacts.strip_trimmed | apply strip_ends].
Qed.

Lemma strip_whitespace_from_strings_keeps_interior_witness :
  exists out v' s',
    table_of (strip_whitespace_from_strings 0 [sample]) = Return out
    /\ nth_error (data out) 0 = Some (StringDtype v')
    /\ nth_error v' 0 = Some (Some s')
    /\ PyStr.trimmed s'
    /\ exists a b,
         "  tea "%string = (a ++ s' ++ b)%string
         /\ all_space a = true /\ all_space b = true.
Proof.
  apply (strip_whitespace_from_strings_keeps_interior [sample] 0 sample 0 0
           [OStr "  tea "; ONaN; OStr "mug"] "  tea "); reflexivity.
Defined.

Lemma strip_step_unique idx l l1 l2 c1 o c2 :
  length l1 = length c1 ->
  count l (l1 ++ l :: l2) = 1 ->
  strip_step (mkDataFrame (l1 ++ l :: l2) idx (c1 ++ Object o :: c2)) l
  = Return (mkDataFrame (l1 ++ l :: l2) idx (c1 ++ trim_column (Object o) :: c2)).
Proof.
  intros H1 Hcount. rewrite count_app in Hcount. simpl in Hcount.
  rewrite String.eqb_refl in Hcount.
  assert (Hn1 : count l l1 = 0) by lia.
  assert (Hn2 : count l l2 = 0) by lia.
  assert (Hmem : mem l (l1 ++ l :: l2) = true).
  { apply mem_count. rewrite count_app. simpl. rewrite String.eqb_refl. lia. }
  unfold strip_step, select, set_column. cbn [columns data index]. rewrite Hmem.
  rewrite labelled_app by exact H1.
  rewrite (labelled_none l l1 c1 Hn1). simpl. rewrite String.eqb_refl.
  rewrite (labelled_none l l2 c2 Hn2). simpl.
  rewrite replace_labelled_app by exact H1.
  rewrite (replace_labelled_none l _ l1 c1 Hn1). simpl.
  now rewrite String.eqb_refl, (replace_labelled_none l _ l2 c2 Hn2).
Qed.

Lemma strip_step_shared idx l labels cs :
  length labels = length cs ->
  mem l labels = true -> count l labels <> 1 ->
  strip_step (mkDataFrame labels idx cs) l = Raise AttributeError.
Proof.
  intros Hlen Hmem Hcount. unfold strip_step, select. cbn [columns data].
  rewrite Hmem. pose proof (labelled_count l labels cs Hlen) as Hl.
  apply mem_count in Hmem.
  destruct (labelled l labels cs) as [|x [|y ys]]; simpl in Hl;
    [congruence | congruence | reflexivity].
Qed.

(** The loop on a frame in which a text column that remains shares its
    label: it stops with the AttributeError of the first such column. *)
Lemma strip_loop_shared idx l2 :
  forall c2 l1 c1,
    length l1 = length c1 -> length l2 = length c2 ->
    forallb (fun l => (count l (l1 ++ l2) =? 1)%nat) (object_labels l2 c2) = false ->
    strip_loop (mkDataFrame (l1 ++ l2) idx (map trim_column c1 ++ c2))
               (object_labels l2 c2)
    = Raise AttributeError.
Proof.
  induction l2 as [|l l2 IH]; intros [|c c2] l1 c1 H1 H2 Hu; try discriminate H2.
  - discriminate Hu.
  - assert (Hl : l1 ++ l :: l2 = (l1 ++ [l]) ++ l2) by now rewrite <- app_assoc.
    assert (H1' : length (l1 ++ [l]) = length (c1 ++ [c]))
      by (rewrite !length_app; simpl; lia).
    assert (H2' : length l2 = length c2) by (simpl in H2; lia).
    destruct (is_object c) eqn:Eo.
    + destruct c as [| |o|]; try discriminate Eo.
      change (object_labels (l :: l2) (Object o :: c2))
        with (l :: object_labels l2 c2) in *.
      cbn [forallb] in Hu. cbn [strip_loop].
      destruct (count l (l1 ++ l :: l2) =? 1)%nat eqn:Ec.
      * apply Nat.eqb_eq in Ec.
        rewrite (strip_step_unique idx l l1 l2 (map trim_column c1) o c2)
          by (rewrite ?length_map; assumption).
        replace (map trim_column c1 ++ trim_column (Object o) :: c2)
          with (map trim_column (c1 ++ [Object o]) ++ c2)
          by (rewrite map_app, <- app_assoc; reflexivity).
        rewrite Hl. apply IH; [exact H1' | exact H2' |].
        rewrite <- Hl. exact Hu.
      * apply Nat.eqb_neq in Ec.
        rewrite strip_step_shared; [reflexivity | | | exact Ec].
        -- rewrite !length_app, length_map. simpl. lia.
        -- apply mem_count. rewrite count_app. simpl.
           rewrite String.eqb_refl. lia.
    + replace (object_labels (l :: l2) (c :: c2)) with (object_labels l2 c2) in *
        by (simpl; now rewrite Eo).
      replace (map trim_column c1 ++ c :: c2)
        with (map trim_column (c1 ++ [c]) ++ c2)
        by (rewrite map_app, <- app_assoc; destruct c; try discriminate Eo; reflexivity).
      rewrite Hl. apply IH; [exact H1' | exact H2' |].
      rewrite <- Hl. exact Hu.
Qed.

(** On a table in which a text-typed column shares its label with
    another column the Text Trimmer raises an AttributeError, and the
    table passed in is as it was. *)
Theorem strip_whitespace_from_strings_shared_label_raises
  (h : heap) (r : ref) (df : DataFrame) :
  nth_error h r = Some df ->
  well_formed df = true ->
  text_labels_unique df = false ->
  exists h',
    strip_whitespace_from_strings r h = (Raise AttributeError, h')
    /\ nth_error h' r = Some df.
Proof.
  intros Hr Hwf Hu.
  destruct (strip_whitespace_from_strings_run h r) as [w [Hrun _]].
  rewrite (nth_error_nth h r Hr) in Hrun.
  destruct (well_formed_shape df Hwf) as [Hlen _].
  destruct df as [labels idx cs]. simpl in *.
  pose proof (strip_loop_shared idx labels cs [] [] eq_refl (eq_sym Hlen) Hu) as Hs.
  simpl in Hs. rewrite Hs in Hrun.
  exists (h ++ [w]). split; [exact Hrun | apply preserves_app, Hr].
Qed.

Lemma strip_whitespace_from_strings_shared_label_raises_witness :
  exists h',
    strip_whitespace_from_strings 0 [two_names] = (Raise AttributeError, h')
    /\ nth_error h' 0 = Some two_names.
Proof.
  apply (strip_whitespace_from_strings_shared_label_raises [two_names] 0 two_names);
    reflexivity.
Defined.

Lemma object_labels_none labels cs :
  existsb is_object cs = false -> object_labels labels cs = [].
Proof.
  revert cs. induction labels as [|l ls IH]; intros [|c cs] H; simpl in *;
    try reflexivity.
  apply orb_false_iff in H as [-> H]. now apply IH.
Qed.

(** A table without a text-typed column comes back from the Text
    Trimmer as an equal table. *)
Theorem strip_whitespace_from_strings_no_text
  (h : heap) (r : ref) (df : DataFrame) :
  nth_error h r = Some df ->
  existsb is_object (data df) = false ->
  table_of (strip_whitespace_from_strings r h) = Return df.
Proof.
  intros Hr Hno.
  destruct (strip_whitespace_from_strings_run h r) as [w [Hrun Hw]].
  rewrite (nth_error_nth h r Hr) in Hrun, Hw.
  rewrite (object_labels_none (columns df) (data df) Hno) in Hrun, Hw.
  simpl in Hrun, Hw. rewrite Hrun, <- (Hw df eq_refl).
  unfold table_of. now rewrite nth_error_new.
Qed.

Lemma strip_whitespace_from_strings_no_text_witness :
  table_of (strip_whitespace_from_strings 0 [clean_sales]) = Return clean_sales.
Proof.
  apply (strip_whitespace_from_strings_no_text [clean_sales] 0 clean_sales);
    reflexivity.
Defined.

(** ** Tables the filters have nothing to drop from *)

Lemma compress_all (X : Type) keep (l : list X) :
  length keep = length l -> forallb (fun b => b) keep = true -> compress keep l = l.
Proof.
  revert l. induction keep as [|b keep IH]; intros [|x l] H Hall; simpl in *;
    try reflexivity; try discriminate.
  apply andb_true_iff in Hall as [-> Hall]. f_equal. apply IH; congruence.
Qed.

Lemma forallb_map_id (X : Type) (p : X -> bool) l :
  forallb (fun b => b) (map p l) = forallb p l.
Proof. induction l as [|x l IH]; simpl; [reflexivity | now rewrite IH]. Qed.

Lemma forallb_filter (X : Type) (p : X -> bool) l : forallb p (filter p l) = true.
Proof.
  induction l as [|x l IH]; simpl; [reflexivity|].
  destruct (p x) eqn:E; simpl; [now rewrite E|exact IH].
Qed.

Lemma forallb_zip_with (X Y : Type) (f : X -> bool) (g : Y -> bool)
  (k : X -> Y -> bool) l l' :
  (forall a b, f a = true -> g b = true -> k a b = true) ->
  forallb f l = true -> forallb g l' = true ->
  forallb (fun b => b) (zip_with k l l') = true.
Proof.
  intros Hk. revert l'. induction l as [|a l IH]; intros [|b l'] Hl Hl'; simpl in *;
    try reflexivity.
  apply andb_true_iff in Hl as [Ha Hl]. apply andb_true_iff in Hl' as [Hb Hl'].
  now rewrite (Hk a b Ha Hb), IH.
Qed.

Lemma select_rows_all keep v :
  well_formed v = true -> length keep = length (index v) ->
  forallb (fun b => b) keep = true ->
  select_rows keep v = v.
Proof.
  intros Hwf Hk Hall. destruct (well_formed_shape v Hwf) as [_ Hs].
  destruct v as [labels idx cs]. unfold select_rows. simpl in *. f_equal.
  - now apply compress_all.
  - rewrite <- (map_id cs) at 2. apply map_ext_in. intros c Hin.
    rewrite Forall_forall in Hs. specialize (Hs c Hin).
    destruct c as [l|l|l|l]; simpl in *; rewrite length_map in Hs; f_equal;
      (apply compress_all; [congruence | exact Hall]).
Qed.

Lemma without_missing_fixed v :
  well_formed v = true ->
  forallb required_present (rows v) = true ->
  without_missing v = v.
Proof.
  intros Hwf Hall. unfold without_missing. rewrite (dropna_mask_rows v Hwf).
  apply select_rows_all; [exact Hwf | | now rewrite forallb_map_id].
  rewrite length_map. now apply rows_length.
Qed.

Lemma forallb_valid_column v name c :
  well_formed v = true -> column_of v name = Some c ->
  forallb (holds_at name is_nonnegative) (rows v) = true ->
  forallb is_nonnegative (cells c) = true.
Proof.
  intros Hwf Hc Hall.
  rewrite <- forallb_map_id, <- (@holds_at_column v name c is_nonnegative Hwf Hc).
  now rewrite forallb_map_id.
Qed.

Lemma forallb_valid v :
  forallb valid (rows v) = true ->
  forallb (holds_at "price" is_nonnegative) (rows v) = true
  /\ forallb (holds_at "quantity" is_nonnegative) (rows v) = true.
Proof.
  unfold valid. induction (rows v) as [|x l IH]; simpl; [auto|].
  intros H. apply andb_true_iff in H as [Hx Hl].
  apply andb_true_iff in Hx as [-> ->]. destruct (IH Hl) as [-> ->]. auto.
Qed.

Lemma ge0_all_nonnegative c :
  forallb is_nonnegative (cells c) = true -> exists m, ge0 c = Return m.
Proof.
  destruct c as [v|v|v|v]; simpl; try (intros _; eexists; reflexivity).
  - intros H. assert (Hs : existsb is_str v = false).
    { induction v as [|x v IH]; [reflexivity|]. simpl in *.
      apply andb_true_iff in H as [Hx Hv]. rewrite (IH Hv).
      destruct x; try reflexivity; discriminate Hx. }
    rewrite Hs. eexists. reflexivity.
  - destruct v as [|x v]; simpl; try discriminate; intros _; eexists; reflexivity.
Qed.

Lemma validity_all_valid v p q :
  well_formed v = true ->
  column_of v "price" = Some p -> column_of v "quantity" = Some q ->
  forallb valid (rows v) = true ->
  validity v = Return v.
Proof.
  intros Hwf Hp Hq Hall. destruct (forallb_valid v Hall) as [Ap Aq].
  destruct (ge0_all_nonnegative p
              (forallb_valid_column v "price" p Hwf Hp Ap)) as [lhs El].
  destruct (ge0_all_nonnegative q
              (forallb_valid_column v "quantity" q Hwf Hq Aq)) as [rhs Er].
  rewrite (validity_columns v p q Hp Hq), El, Er. f_equal. unfold valid_rows.
  rewrite (validity_mask v p q lhs rhs Hwf Hp Hq El Er).
  apply select_rows_all; [exact Hwf | | now rewrite forallb_map_id].
  rewrite length_map. now apply rows_length.
Qed.

Lemma without_missing_all_valid v p q :
  well_formed v = true ->
  column_of v "price" = Some p -> column_of v "quantity" = Some q ->
  forallb valid (rows v) = true ->
  without_missing v = v.
Proof.
  intros Hwf Hp Hq Hall. destruct (forallb_valid v Hall) as [Ap Aq].
  pose proof (forallb_valid_column v "price" p Hwf Hp Ap) as Np.
  pose proof (forallb_valid_column v "quantity" q Hwf Hq Aq) as Nq.
  unfold without_missing. rewrite (dropna_mask_columns v p q Hwf Hp Hq).
  apply select_rows_all; [exact Hwf | |].
  - rewrite zip_with_length.
    + exact (@column_of_shape v "price" p Hwf Hp).
    + rewrite (@column_of_shape v "price" p Hwf Hp).
      symmetry. exact (@column_of_shape v "quantity" q Hwf Hq).
  - apply (forallb_zip_with cell cell is_nonnegative is_nonnegative); [|exact Np|exact Nq].
    intros a b Ha Hb.
    destruct (isna a) eqn:Na;
      [rewrite (missing_not_nonnegative a Na) in Ha; discriminate|].
    destruct (isna b) eqn:Nb;
      [rewrite (missing_not_nonnegative b Nb) in Hb; discriminate|].
    reflexivity.
Qed.

Lemma valid_rows_shape v p q lhs rhs :
  well_formed v = true ->
  column_of v "price" = Some p -> column_of v "quantity" = Some q ->
  ge0 p = Return lhs -> ge0 q = Return rhs ->
  well_formed (valid_rows lhs rhs v) = true
  /\ column_of (valid_rows lhs rhs v) "price"
     = Some (take_column (map is_true (mask_and lhs rhs)) p)
  /\ column_of (valid_rows lhs rhs v) "quantity"
     = Some (take_column (map is_true (mask_and lhs rhs)) q)
  /\ forallb valid (rows (valid_rows lhs rhs v)) = true.
Proof.
  intros Hwf Hp Hq El Er.
  assert (Hlen : length (map is_true (mask_and lhs rhs)) = length (index v)).
  { rewrite (validity_mask v p q lhs rhs Hwf Hp Hq El Er), length_map.
    now apply rows_length. }
  unfold valid_rows. split; [now apply well_formed_select_rows|].
  split; [now apply column_of_select_rows|].
  split; [now apply column_of_select_rows|].
  rewrite rows_select_rows by assumption.
  rewrite (validity_mask v p q lhs rhs Hwf Hp Hq El Er), compress_map_filter.
  apply forallb_filter.
Qed.

Lemma validity_returns v p q out :
  column_of v "price" = Some p -> column_of v "quantity" = Some q ->
  validity v = Return out ->
  exists lhs rhs,
    ge0 p = Return lhs /\ ge0 q = Return rhs /\ out = valid_rows lhs rhs v.
Proof.
  intros Hp Hq. rewrite (validity_columns v p q Hp Hq).
  destruct (ge0 p) as [lhs|]; [|discriminate].
  destruct (ge0 q) as [rhs|]; [|discriminate].
  intros [= <-]. now exists lhs, rhs.
Qed.

Lemma table_of_after_handle_missing_values (g : ref -> M ref) h r df :
  nth_error h r = Some df -> has_required df = true ->
  table_of (and_then handle_missing_values g r h)
  = table_of (g (S (length h)) (h ++ [df; without_missing df])).
Proof.
  intros Hr Hreq. unfold and_then, bind.
  now rewrite handle_missing_values_run, (nth_error_nth h r Hr), Hreq.
Qed.

Lemma table_of_after_remove_invalid_rows (g : ref -> M ref) h r df out :
  nth_error h r = Some df -> has_required df = true ->
  validity df = Return out ->
  table_of (and_then remove_invalid_rows g r h)
  = table_of (g (S (length h)) (h ++ [df; out])).
Proof.
  intros Hr Hreq Hv. unfold and_then, bind.
  now rewrite remove_invalid_rows_run, (nth_error_nth h r Hr), Hreq, Hv.
Qed.

Lemma has_required_mem v :
  mem "price" (columns v) = true -> mem "quantity" (columns v) = true ->
  has_required v = true.
Proof. intros Hp Hq. unfold has_required. now rewrite Hp, Hq. Qed.

(** A table with the two columns in which no required value is missing
    comes back from the Required-Value Filter as an equal table; so
    does a table with no rows. *)
Theorem handle_missing_values_nothing_missing (h : heap) (r : ref) (df : DataFrame) :
  nth_error h r = Some df ->
  well_formed df = true ->
  mem "price" (columns df) = true ->
  mem "quantity" (columns df) = true ->
  forallb required_present (rows df) = true ->
  table_of (handle_missing_values r h) = Return df.
Proof.
  intros Hr Hwf Hp Hq Hall.
  rewrite (table_of_handle_missing_values h r Hr), (has_required_mem df Hp Hq).
  now rewrite (without_missing_fixed df Hwf Hall).
Qed.

Lemma handle_missing_values_nothing_missing_witness :
  table_of (handle_missing_values 0 [clean_sales]) = Return clean_sales.
Proof.
  apply (handle_missing_values_nothing_missing [clean_sales] 0 clean_sales);
    reflexivity.
Defined.

(** A table in which every row has a price and a quantity at least zero
    comes back from the Validity Filter as an equal table; so does a
    table with no rows, whatever the dtypes of the two columns. *)
Theorem remove_invalid_rows_all_valid
  (h : heap) (r : ref) (df : DataFrame) (p q : column) :
  nth_error h r = Some df ->
  well_formed df = true ->
  column_of df "price" = Some p ->
  column_of df "quantity" = Some q ->
  forallb valid (rows df) = true ->
  table_of (remove_invalid_rows r h) = Return df.
Proof.
  intros Hr Hwf Hp Hq Hall.
  rewrite (table_of_remove_invalid_rows h r Hr), (has_required_columns df p q Hp Hq).
  exact (validity_all_valid df p q Hwf Hp Hq Hall).
Qed.

Lemma remove_invalid_rows_all_valid_witness :
  table_of (remove_invalid_rows 0 [clean_sales]) = Return clean_sales.
Proof.
  apply (remove_invalid_rows_all_valid [clean_sales] 0 clean_sales
           (Float64 [ten; S754_zero true]) (Int64 [3; 0]%Z)); reflexivity.
Defined.

(** The Required-Value Filter is idempotent: applied to the table it
    returned, it returns that table again. *)
Theorem handle_missing_values_idempotent (h : heap) (r : ref) (df : DataFrame) :
  nth_error h r = Some df ->
  well_formed df = true ->
  mem "price" (columns df) = true ->
  mem "quantity" (columns df) = true ->
  exists out,
    table_of (handle_missing_values r h) = Return out
    /\ table_of (and_then handle_missing_values handle_missing_values r h)
       = Return out.
Proof.
  intros Hr Hwf Hp Hq. pose proof (has_required_mem df Hp Hq) as Hreq.
  exists (without_missing df).
  rewrite (table_of_handle_missing_values h r Hr), Hreq.
  split; [reflexivity|].
  rewrite (table_of_after_handle_missing_values _ h r df Hr Hreq).
  rewrite (table_of_handle_missing_values (h ++ [df; without_missing df])
             (S (length h)) (nth_error_new2 h df (without_missing df))).
  change (has_required (without_missing df)) with (has_required df). rewrite Hreq.
  f_equal. assert (Hlen : length (dropna_mask df required_columns) = length (index df)).
  { rewrite (dropna_mask_rows df Hwf), length_map. now apply rows_length. }
  apply without_missing_fixed.
  - unfold without_missing. now apply well_formed_select_rows.
  - unfold without_missing at 1. rewrite rows_select_rows by assumption.
    rewrite (dropna_mask_rows df Hwf), compress_map_filter. apply forallb_filter.
Qed.

Lemma handle_missing_values_idempotent_witness :
  exists out,
    table_of (handle_missing_values 0 [sample_clean]) = Return out
    /\ table_of (and_then handle_missing_values handle_missing_values 0 [sample_clean])
       = Return out.
Proof.
  apply (handle_missing_values_idempotent [sample_clean] 0 sample_clean);
    reflexivity.
Defined.

(** The Validity Filter is idempotent: whenever it returns a table,
    applied to that table it returns it again. *)
Theorem remove_invalid_rows_idempotent
  (h : heap) (r : ref) (df : DataFrame) (p q : column) (out : DataFrame) :
  nth_error h r = Some df ->
  well_formed df = true ->
  column_of df "price" = Some p ->
  column_of df "quantity" = Some q ->
  table_of (remove_invalid_rows r h) = Return out ->
  table_of (and_then remove_invalid_rows remove_invalid_rows r h) = Return out.
Proof.
  intros Hr Hwf Hp Hq. pose proof (has_required_columns df p q Hp Hq) as Hreq.
  rewrite (table_of_remove_invalid_rows h r Hr), Hreq. intros Hv.
  rewrite (table_of_after_remove_invalid_rows _ h r df out Hr Hreq Hv).
  rewrite (table_of_remove_invalid_rows (h ++ [df; out]) (S (length h))
             (nth_error_new2 h df out)).
  destruct (validity_returns df p q out Hp Hq Hv) as [lhs [rhs [El [Er ->]]]].
  destruct (valid_rows_shape df p q lhs rhs Hwf Hp Hq El Er) as [Hw [Cp [Cq Hall]]].
  rewrite (has_required_columns _ _ _ Cp Cq).
  exact (validity_all_valid _ _ _ Hw Cp Cq Hall).
Qed.

Lemma remove_invalid_rows_idempotent_witness :
  table_of (and_then remove_invalid_rows remove_invalid_rows 0 [sample_clean])
  = Return (mkDataFrame ["product"; "price"; "quantity"] [0%Z]
              [Object [OStr "  tea "]; Float64 [ten]; Int64 [2%Z]]).
Proof.
  apply (remove_invalid_rows_idempotent [sample_clean] 0 sample_clean
           (Float64 [ten; S754_nan; minus_three]) (Int64 [2; 1; 4]%Z));
    reflexivity.
Defined.

(** The Required-Value Filter has nothing to drop after the Validity
    Filter: applied to the table the Validity Filter returned, it
    returns that table. *)
Theorem handle_missing_values_after_remove_invalid_rows
  (h : heap) (r : ref) (df : DataFrame) (p q : column) (out : DataFrame) :
  nth_error h r = Some df ->
  well_formed df = true ->
  column_of df "price" = Some p ->
  column_of df "quantity" = Some q ->
  table_of (remove_invalid_rows r h) = Return out ->
  table_of (and_then remove_invalid_rows handle_missing_values r h) = Return out.
Proof.
  intros Hr Hwf Hp Hq. pose proof (has_required_columns df p q Hp Hq) as Hreq.
  rewrite (table_of_remove_invalid_rows h r Hr), Hreq. intros Hv.
  rewrite (table_of_after_remove_invalid_rows _ h r df out Hr Hreq Hv).
  rewrite (table_of_handle_missing_values (h ++ [df; out]) (S (length h))
             (nth_error_new2 h df out)).
  destruct (validity_returns df p q out Hp Hq Hv) as [lhs [rhs [El [Er ->]]]].
  destruct (valid_rows_shape df p q lhs rhs Hwf Hp Hq El Er) as [Hw [Cp [Cq Hall]]].
  rewrite (has_required_columns _ _ _ Cp Cq).
  now rewrite (without_missing_all_valid _ _ _ Hw Cp Cq Hall).
Qed.

Lemma handle_missing_values_after_remove_invalid_rows_witness :
  table_of (and_then remove_invalid_rows handle_missing_values 0 [sample_clean])
  = Return (mkDataFrame ["product"; "price"; "quantity"] [0%Z]
              [Object [OStr "  tea "]; Float64 [ten]; Int64 [2%Z]]).
Proof.
  apply (handle_missing_values_after_remove_invalid_rows [sample_clean] 0 sample_clean
           (Float64 [ten; S754_nan; minus_three]) (Int64 [2; 1; 4]%Z));
    reflexivity.
Defined.

(** ** Text where a number is expected *)

Lemma ge0_has_text c :
  ge0 c = if has_text c then Raise TypeError
          else Return (match c with
                       | Int64 v => map (fun z => Some (0 <=? z)%Z) v
                       | Float64 v => map (fun f => Some (SFleb zero f)) v
                       | Object v => map (fun o => Some (object_ge0 o)) v
                       | StringDtype v => map (fun _ => None) v
                       end).
Proof. destruct c; reflexivity. Qed.

(** On a table with the two columns the Validity Filter raises a
    TypeError exactly when the price column or the quantity column
    holds a text value; otherwise it returns a table. *)
Theorem remove_invalid_rows_text_raises
  (h : heap) (r : ref) (df : DataFrame) (p q : column) :
  nth_error h r = Some df ->
  column_of df "price" = Some p ->
  column_of df "quantity" = Some q ->
  (table_of (remove_invalid_rows r h) = Raise TypeError
   <-> has_text p || has_text q = true)
  /\ (has_text p || has_text q = false ->
      exists out, table_of (remove_invalid_rows r h) = Return out).
Proof.
  intros Hr Hp Hq.
  rewrite (table_of_remove_invalid_rows h r Hr), (has_required_columns df p q Hp Hq),
    (validity_columns df p q Hp Hq), (ge0_has_text p), (ge0_has_text q).
  destruct (has_text p), (has_text q); simpl; split;
    try (split; [reflexivity || discriminate | reflexivity || discriminate]);
    try discriminate; intros _; eexists; reflexivity.
Qed.

Lemma remove_invalid_rows_text_raises_witness :
  (table_of (remove_invalid_rows 0 [text_price]) = Raise TypeError
   <-> has_text (Object [OStr "abc"]) || has_text (Float64 [S754_nan]) = true)
  /\ (has_text (Object [OStr "abc"]) || has_text (Float64 [S754_nan]) = false ->
      exists out, table_of (remove_invalid_rows 0 [text_price]) = Return out).
Proof.
  apply (remove_invalid_rows_text_raises [text_price] 0 text_price
           (Object [OStr "abc"]) (Float64 [S754_nan])); reflexivity.
Defined.

(** ** What the filters keep *)







(** ** The shape invariant *)

Lemma well_formed_renamed v : well_formed v = true -> well_formed (renamed v) = true.
Proof.
  unfold well_formed, renamed. simpl. now rewrite length_map.
Qed.

Lemma cells_trim_column_length c : length (cells (trim_column c)) = length (cells c).
Proof. destruct c; simpl; now rewrite ?length_map. Qed.

Lemma well_formed_trimmed_frame v :
  well_formed v = true -> well_formed (trimmed_frame v) = true.
Proof.
  intros Hwf. destruct (well_formed_shape v Hwf) as [Hl Hs].
  unfold well_formed, trimmed_frame. simpl. apply andb_true_iff. split.
  - apply Nat.eqb_eq. now rewrite length_map.
  - apply forallb_forall. intros c Hin. apply in_map_iff in Hin as [c0 [<- Hin]].
    apply Nat.eqb_eq. rewrite cells_trim_column_length.
    rewrite Forall_forall in Hs. now apply Hs.
Qed.

Lemma validity_series v out :
  validity v = Return out ->
  exists p q, column_of v "price" = Some p /\ column_of v "quantity" = Some q.
Proof.
  unfold validity, column_of.
  destruct (select v "price") as [[p|ps]|]; try discriminate.
  simpl. destruct (ge0 p); [|discriminate].
  destruct (select v "quantity") as [[q|qs]|]; try discriminate.
  intros _. now exists p, q.
Qed.

(** Each stage returns a well-formed table when given one: one array
    per label, every array as long as the index. *)
Theorem stages_keep_well_formed (h : heap) (r : ref) (df out : DataFrame) :
  nth_error h r = Some df ->
  well_formed df = true ->
  table_of (clean_column_names r h) = Return out
  \/ table_of (strip_whitespace_from_strings r h) = Return out
  \/ table_of (handle_missing_values r h) = Return out
  \/ table_of (remove_invalid_rows r h) = Return out ->
  well_formed out = true.
Proof.
  intros Hr Hwf [H | [H | [H | H]]].
  - rewrite (table_of_clean_column_names h r df Hr) in H. injection H as <-.
    now apply well_formed_renamed.
  - destruct (table_of_strip_whitespace_from_strings h r df Hr Hwf) as [Hform Hu].
    pose proof (Hu out H) as Hunique. rewrite (Hform Hunique) in H.
    unfold table_of in H. rewrite nth_error_new in H. injection H as <-.
    now apply well_formed_trimmed_frame.
  - rewrite (table_of_handle_missing_values h r Hr) in H.
    destruct (has_required df); [|discriminate]. injection H as <-.
    unfold without_missing. apply well_formed_select_rows; [exact Hwf|].
    rewrite (dropna_mask_rows df Hwf), length_map. now apply rows_length.
  - rewrite (table_of_remove_invalid_rows h r Hr) in H.
    destruct (has_required df); [|discriminate].
    destruct (validity_series df out H) as [p [q [Hp Hq]]].
    destruct (validity_returns df p q out Hp Hq H) as [lhs [rhs [El [Er ->]]]].
    now destruct (valid_rows_shape df p q lhs rhs Hwf Hp Hq El Er).
Qed.

Lemma stages_keep_well_formed_witness :
  well_formed (trimmed_frame sample) = true.
Proof.
  apply (stages_keep_well_formed [sample] 0 sample (trimmed_frame sample));
    [reflexivity | reflexivity | right; left; reflexivity].
Defined.

(** ** Dtypes after the Text Trimmer *)

Lemma dtype_of_trim_column c : dtype_of (trim_column c) = trimmed_dtype (dtype_of c).
Proof. now destruct c. Qed.

(** The Text Trimmer turns every column of dtype object into a column
    of dtype string and keeps the dtype of every other column; the
    table it returns has no column of dtype object. *)
Theorem strip_whitespace_from_strings_dtypes
  (h : heap) (r : ref) (df out : DataFrame) :
  nth_error h r = Some df ->
  well_formed df = true ->
  table_of (strip_whitespace_from_strings r h) = Return out ->
  dtypes out = map trimmed_dtype (dtypes df)
  /\ ~ In object (dtypes out).
Proof.
  intros Hr Hwf H.
  destruct (table_of_strip_whitespace_from_strings h r df Hr Hwf) as [Hform Hu].
  pose proof (Hu out H) as Hunique. rewrite (Hform Hunique) in H.
  unfold table_of in H. rewrite nth_error_new in H. injection H as <-.
  assert (Hd : dtypes (trimmed_frame df) = map trimmed_dtype (dtypes df)).
  { unfold dtypes, trimmed_frame. simpl. rewrite !map_map.
    apply map_ext. apply dtype_of_trim_column. }
  split; [exact Hd|]. rewrite Hd. intros Hin.
  apply in_map_iff in Hin as [d [Hd' _]]. now destruct d.
Qed.

Lemma strip_whitespace_from_strings_dtypes_witness :
  dtypes (trimmed_frame sample) = map trimmed_dtype (dtypes sample)
  /\ ~ In object (dtypes (trimmed_frame sample)).
Proof.
  apply (strip_whitespace_from_strings_dtypes [sample] 0 sample (trimmed_frame sample));
    reflexivity.
Defined.

(** ** Which column the KeyError names *)

(** The KeyError of the two filters names "price" whenever that column
    is absent, also when "quantity" is absent too, and names "quantity"
    when only that one is absent. *)
Theorem missing_column_named_in_order (h : heap) (r : ref) (df : DataFrame) :
  nth_error h r = Some df ->
  (mem "price" (columns df) = false ->
   fst (handle_missing_values r h)
   = Raise (KeyError "Expected column 'price' not found in DataFrame. Check the raw CSV headers and the column cleaning step.")
   /\ fst (remove_invalid_rows r h)
      = Raise (KeyError "Expected column 'price' not found in DataFrame. Check the raw CSV headers and the column cleaning step."))
  /\ (mem "price" (columns df) = true -> mem "quantity" (columns df) = false ->
      fst (handle_missing_values r h)
      = Raise (KeyError "Expected column 'quantity' not found in DataFrame. Check the raw CSV headers and the column cleaning step.")
      /\ fst (remove_invalid_rows r h)
         = Raise (KeyError "Expected column 'quantity' not found in DataFrame. Check the raw CSV headers and the column cleaning step.")).
Proof.
  intros Hr.
  rewrite handle_missing_values_run, remove_invalid_rows_run, (nth_error_nth h r Hr).
  unfold has_required, missing_column_error.
  split; [intros -> | intros -> ->]; split; reflexivity.
Qed.

Lemma missing_column_named_in_order_witness :
  (mem "price" (columns sample) = false ->
   fst (handle_missing_values 0 [sample])
   = Raise (KeyError "Expected column 'price' not found in DataFrame. Check the raw CSV headers and the column cleaning step.")
   /\ fst (remove_invalid_rows 0 [sample])
      = Raise (KeyError "Expected column 'price' not found in DataFrame. Check the raw CSV headers and the column cleaning step."))
  /\ (mem "price" (columns sample) = true -> mem "quantity" (columns sample) = false ->
      fst (handle_missing_values 0 [sample])
      = Raise (KeyError "Expected column 'quantity' not found in DataFrame. Check the raw CSV headers and the column cleaning step.")
      /\ fst (remove_invalid_rows 0 [sample])
         = Raise (KeyError "Expected column 'quantity' not found in DataFrame. Check the raw CSV headers and the column cleaning step.")).
Proof. apply (missing_column_named_in_order [sample] 0 sample). reflexivity. Defined.

(** ** Stages one after the other *)

Lemma and_then_pure (first second : ref -> M ref) :
  pure_stage first -> pure_stage second -> pure_stage (and_then first second).
Proof.
  intros Hf Hg h r df Hr o h' Hrun. unfold and_then, bind in Hrun.
  destruct (first r h) as [o1 h1] eqn:Ef.
  destruct (Hf h r df Hr o1 h1 Ef) as [Hin1 [Hpres1 Hfresh1]].
  destruct o1 as [r1|e].
  - destruct (Hfresh1 r1 eq_refl) as [Hn1 [Hne1 [mid Hmid]]].
    destruct (Hg h1 r1 mid Hmid o h' Hrun) as [Hin2 [Hpres2 Hfresh2]].
    split; [exact (Hpres2 r df Hin1)|].
    split; [intros r0 v H0; exact (Hpres2 r0 v (Hpres1 r0 v H0))|].
    intros r' Ho. destruct (Hfresh2 r' Ho) as [Hn2 [Hne2 Hout2]].
    split; [|split; [|exact Hout2]].
    + destruct (nth_error h r') as [v|] eqn:E; [|reflexivity].
      rewrite (Hpres1 r' v E) in Hn2. discriminate Hn2.
    + intros ->. rewrite Hin1 in Hn2. discriminate Hn2.
  - injection Hrun as <- <-.
    split; [exact Hin1|]. split; [exact Hpres1|]. discriminate.
Qed.

Lemma clean_column_names_pure : pure_stage clean_column_names.
Proof.
  apply pure_stage_app. intros h r. rewrite clean_column_names_run.
  eexists _, _. split; [reflexivity|].
  intros r' [= <-]. rewrite length_app. simpl. lia.
Qed.

Lemma strip_whitespace_from_strings_pure : pure_stage strip_whitespace_from_strings.
Proof.
  apply pure_stage_app. intros h r.
  destruct (strip_whitespace_from_strings_run h r) as [w [E _]].
  rewrite E. eexists _, _. split; [reflexivity|].
  intros r' Hr'. rewrite length_app. simpl.
  destruct (strip_loop _ _); [injection Hr' as <-; lia | discriminate].
Qed.

Lemma handle_missing_values_pure : pure_stage handle_missing_values.
Proof.
  apply pure_stage_app. intros h r. rewrite handle_missing_values_run.
  destruct (has_required _); eexists _, _; (split; [reflexivity|]).
  - intros r' [= <-]. rewrite length_app. simpl. lia.
  - discriminate.
Qed.

Lemma remove_invalid_rows_pure : pure_stage remove_invalid_rows.
Proof.
  apply pure_stage_app. intros h r. rewrite remove_invalid_rows_run.
  destruct (has_required _); [destruct (validity _)|];
    eexists _, _; (split; [reflexivity|]); try discriminate.
  intros r' [= <-]. rewrite length_app. simpl. lia.
Qed.

(** The four stages run one after the other, each on the table the one
    before returned, are pure as a whole: whatever the outcome, the
    table first passed in and every other object of the store are as
    they were, and a returned table is a new object. *)
Theorem all_stages_pure : pure_stage all_stages.
Proof.
  unfold all_stages.
  apply and_then_pure; [exact clean_column_names_pure|].
  apply and_then_pure; [exact strip_whitespace_from_strings_pure|].
  apply and_then_pure;
    [exact handle_missing_values_pure | exact remove_invalid_rows_pure].
Qed.

Lemma all_stages_pure_witness :
  nth_error (snd (all_stages 0 [sample])) 0 = Some sample
  /\ preserves [sample] (snd (all_stages 0 [sample]))
  /\ (forall r', fst (all_stages 0 [sample]) = Return r' ->
        nth_error [sample] r' = None /\ r' <> 0
        /\ exists out, nth_error (snd (all_stages 0 [sample])) r' = Some out).
Proof. apply (all_stages_pure [sample] 0 sample); reflexivity. Defined.

Example all_stages_sample :
  table_of (all_stages 0 [sample])
  = Return (mkDataFrame ["product"; "price"; "quantity"] [0%Z]
              [StringDtype [Some "tea"]; Float64 [ten]; Int64 [2%Z]]).
Proof. reflexivity. Qed.

(** ** Renaming and trimming in either order *)

Lemma count_map_le (f : string -> string) l labels :
  count l labels <= count (f l) (map f labels).
Proof.
  induction labels as [|x labels IH]; simpl; [lia|].
  destruct (String.eqb x l) eqn:E.
  - apply String.eqb_eq in E. subst x. rewrite String.eqb_refl. lia.
  - destruct (String.eqb (f x) (f l)); lia.
Qed.

Lemma object_labels_map (f : string -> string) labels cs :
  object_labels (map f labels) cs = map f (object_labels labels cs).
Proof.
  revert cs. induction labels as [|l ls IH]; intros [|c cs]; simpl; try reflexivity.
  destruct (is_object c); simpl; now rewrite IH.
Qed.

Lemma object_labels_count l labels cs :
  In l (object_labels labels cs) -> count l labels <> 0.
Proof.
  revert cs. induction labels as [|x ls IH]; intros [|c cs]; simpl; try tauto.
  destruct (String.eqb x l) eqn:E; [lia|].
  destruct (is_object c); [|apply IH].
  intros [-> | Hin]; [rewrite String.eqb_refl in E; discriminate | now apply (IH cs)].
Qed.

Lemma text_labels_unique_renamed v :
  text_labels_unique (renamed v) = true -> text_labels_unique v = true.
Proof.
  rewrite !text_labels_unique_spec. unfold renamed. simpl.
  rewrite object_labels_map. intros H l Hin.
  pose proof (H (normalize l) (in_map normalize _ l Hin)) as Hn.
  pose proof (count_map_le normalize l (columns v)).
  pose proof (object_labels_count l (columns v) (data v) Hin). lia.
Qed.

(** Renaming and trimming can be done in either order: whenever the
    Text Trimmer returns a table for what the Column Normalizer
    returned, the Column Normalizer applied to what the Text Trimmer
    returns for the input gives that same table. *)
Theorem clean_column_names_strip_whitespace_commute
  (h : heap) (r : ref) (df out : DataFrame) :
  nth_error h r = Some df ->
  well_formed df = true ->
  table_of (and_then clean_column_names strip_whitespace_from_strings r h)
  = Return out ->
  table_of (and_then strip_whitespace_from_strings clean_column_names r h)
  = Return out.
Proof.
  intros Hr Hwf. unfold and_then, bind.
  rewrite clean_column_names_run, (nth_error_nth h r Hr). intros H.
  destruct (table_of_strip_whitespace_from_strings (h ++ [renamed df]) (length h)
              (renamed df) (nth_error_new h [] (renamed df))
              (well_formed_renamed df Hwf)) as [Hform Hu].
  pose proof (Hu out H) as Hunique. rewrite (Hform Hunique) in H.
  unfold table_of in H. rewrite nth_error_new in H. injection H as <-.
  destruct (table_of_strip_whitespace_from_strings h r df Hr Hwf) as [Hform' _].
  rewrite (Hform' (text_labels_unique_renamed df Hunique)).
  rewrite clean_column_names_run, nth_new.
  unfold table_of. now rewrite nth_error_new.
Qed.

Lemma clean_column_names_strip_whitespace_commute_witness :
  table_of (and_then strip_whitespace_from_strings clean_column_names 0 [sample])
  = Return (mkDataFrame ["product"; "price"; "quantity"] [0; 1; 2]%Z
              [StringDtype [Some "tea"; None; Some "mug"];
               Float64 [ten; S754_nan; minus_three];
               Int64 [2; 1; 4]%Z]).
Proof.
  apply (clean_column_names_strip_whitespace_commute [sample] 0 sample);
    reflexivity.
Defined.

(** ** The Validity Filter as a stable filter *)

(** Whenever the Validity Filter returns a table, its rows are exactly
    the rows of the input whose price and quantity are at least zero,
    each as it was (index label and values) and in the order of the
    input. *)
Theorem remove_invalid_rows_keeps_valid
  (h : heap) (r : ref) (df : DataFrame) (p q : column) (out : DataFrame) :
  nth_error h r = Some df ->
  well_formed df = true ->
  column_of df "price" = Some p ->
  column_of df "quantity" = Some q ->
  table_of (remove_invalid_rows r h) = Return out ->
  rows out = filter valid (rows df).
Proof.
  intros Hr Hwf Hp Hq.
  rewrite (table_of_remove_invalid_rows h r Hr), (has_required_columns df p q Hp Hq).
  exact (validity_rows df p q out Hwf Hp Hq).
Qed.

Lemma remove_invalid_rows_keeps_valid_witness :
  rows (mkDataFrame ["product"; "price"; "quantity"] [0%Z]
          [Object [OStr "  tea "]; Float64 [ten]; Int64 [2%Z]])
  = filter valid (rows sample_clean).
Proof.
  apply (remove_invalid_rows_keeps_valid [sample_clean] 0 sample_clean
           (Float64 [ten; S754_nan; minus_three]) (Int64 [2; 1; 4]%Z));
    reflexivity.
Defined.

(** ** Labels already in canonical form *)

Lemma replace_without_space s :
  has_char " " s = false -> PyStr.replace " " "_" s = s.
Proof.
  induction s as [|c s IH]; [reflexivity|].
  cbn [has_char PyStr.replace]. intros H. apply orb_false_iff in H as [Hc Hs].
  unfold PyStr.replace_in_char. rewrite Hc. f_equal. exact (IH Hs).
Qed.

Lemma normalize_canonical_fixed label : canonical label -> normalize label = label.
Proof.
  intros [Ht [Hs Hl]]. unfold normalize.
  now rewrite (@PyStrFacts.strip_fixed label Ht), Hl, (replace_without_space label Hs).
Qed.

(** A table whose labels are all in canonical form comes back from the
    Column Normalizer as an equal table. *)
Theorem clean_column_names_canonical_unchanged
  (h : heap) (r : ref) (df : DataFrame) :
  nth_error h r = Some df ->
  Forall canonical (columns df) ->
  table_of (clean_column_names r h) = Return df.
Proof.
  intros Hr Hc. rewrite (table_of_clean_column_names h r df Hr). f_equal.
  destruct df as [labels idx cs]. unfold renamed. simpl in *. f_equal. clear Hr.
  induction Hc as [|l ls Hl _ IH]; [reflexivity|].
  simpl. now rewrite (normalize_canonical_fixed l Hl), IH.
Qed.

Lemma clean_column_names_canonical_unchanged_witness :
  table_of (clean_column_names 0 [clean_sales]) = Return clean_sales.
Proof.
  apply (clean_column_names_canonical_unchanged [clean_sales] 0 clean_sales).
  - reflexivity.
  - repeat constructor.
Defined.

(** ** Trimming and filtering in either order *)

Lemma notna_column_trim c : notna_column (trim_column c) = notna_column c.
Proof.
  destruct c as [| |v|]; try reflexivity.
  unfold notna_column. simpl. rewrite !map_map. apply map_ext.
  intros [s| | |z|f|b]; try reflexivity. simpl. now destruct (is_nan f).
Qed.

Lemma has_text_trim c :
  has_number c = false -> has_text (trim_column c) = has_text c.
Proof.
  destruct c as [| |v|]; try reflexivity.
  simpl. induction v as [|x v IH]; [reflexivity|].
  simpl. intros H. apply orb_false_iff in H as [Hx Hv]. rewrite (IH Hv).
  destruct x as [s| | |z|f|b]; try reflexivity; try discriminate Hx.
  simpl in *. now destruct (is_nan f).
Qed.

Lemma object_ge0_missing (v : list pyobj) :
  existsb is_str v = false -> existsb is_number v = false ->
  map (fun o => is_true (Some (object_ge0 o))) v = map (fun _ => false) v.
Proof.
  induction v as [|x v IH]; [reflexivity|].
  cbn [map existsb]. intros Hs Hn.
  apply orb_false_iff in Hs as [Hxs Hs]. apply orb_false_iff in Hn as [Hxn Hn].
  f_equal; [|exact (IH Hs Hn)].
  destruct x as [s| | |z|f|b]; try reflexivity; try discriminate.
  simpl in *. destruct f; try reflexivity; discriminate Hxn.
Qed.

Lemma trim_take_column keep c :
  trim_column (take_column keep c) = take_column keep (trim_column c).
Proof.
  destruct c as [| |v|]; try reflexivity.
  simpl. unfold str_strip. now rewrite !compress_map.
Qed.

Lemma trimmed_select_rows keep v :
  trimmed_frame (select_rows keep v) = select_rows keep (trimmed_frame v).
Proof.
  unfold trimmed_frame, select_rows. simpl. f_equal.
  rewrite !map_map. apply map_ext. apply trim_take_column.
Qed.

Lemma object_labels_take keep labels cs :
  object_labels labels (map (take_column keep) cs) = object_labels labels cs.
Proof.
  revert cs. induction labels as [|l ls IH]; intros [|c cs]; simpl; try reflexivity.
  rewrite IH. now destruct c.
Qed.

Lemma text_labels_unique_select_rows keep v :
  text_labels_unique (select_rows keep v) = text_labels_unique v.
Proof.
  unfold text_labels_unique, select_rows. simpl. now rewrite object_labels_take.
Qed.

Lemma dropna_mask_trimmed v subset :
  dropna_mask (trimmed_frame v) subset = dropna_mask v subset.
Proof.
  unfold dropna_mask, trimmed_frame. simpl.
  assert (Hflat : flat_map (fun k => labelled k (columns v) (map trim_column (data v)))
                           subset
                  = map trim_column
                        (flat_map (fun k => labelled k (columns v) (data v)) subset)).
  { induction subset as [|k subset IH]; [reflexivity|].
    simpl. now rewrite labelled_map, IH, map_app. }
  rewrite Hflat. clear Hflat.
  induction (flat_map (fun k => labelled k (columns v) (data v)) subset) as [|c cs IH];
    [reflexivity|].
  cbn [map fold_right]. now rewrite notna_column_trim, IH.
Qed.

Lemma column_of_trimmed v name c :
  column_of v name = Some c ->
  column_of (trimmed_frame v) name = Some (trim_column c).
Proof.
  rewrite !column_of_spec. simpl. intros [Hm Hl]. split; [exact Hm|].
  now rewrite labelled_map, Hl.
Qed.

Lemma is_true_mask_and lhs rhs :
  map is_true (mask_and lhs rhs) = zip_with andb (map is_true lhs) (map is_true rhs).
Proof.
  unfold mask_and. rewrite map_zip_with.
  rewrite (@zip_with_ext _ _ _ (fun a b => is_true (kleene_and a b))
             (fun a b => is_true a && is_true b) lhs rhs is_true_kleene_and).
  symmetry. apply zip_with_map_map.
Qed.

Lemma ge0_trim c :
  has_number c = false ->
  match ge0 c with
  | Return m =>
      exists m', ge0 (trim_column c) = Return m' /\ map is_true m' = map is_true m
  | Raise e => ge0 (trim_column c) = Raise e
  end.
Proof.
  destruct c as [v|v|v|v]; intros Hn.
  - eexists. split; reflexivity.
  - eexists. split; reflexivity.
  - pose proof (has_text_trim (Object v) Hn) as Ht. simpl in Ht, Hn. simpl.
    rewrite Ht. destruct (existsb is_str v) eqn:Hs; [reflexivity|].
    eexists. split; [reflexivity|].
    rewrite !map_map. symmetry. now apply object_ge0_missing.
  - simpl. destruct (existsb is_some v); [reflexivity|].
    eexists. split; reflexivity.
Qed.

Lemma validity_trimmed v p q :
  column_of v "price" = Some p -> column_of v "quantity" = Some q ->
  has_number p = false -> has_number q = false ->
  validity (trimmed_frame v)
  = match validity v with
    | Return out => Return (trimmed_frame out)
    | Raise e => Raise e
    end.
Proof.
  intros Hp Hq Np Nq.
  rewrite (validity_columns (trimmed_frame v) (trim_column p) (trim_column q)
             (column_of_trimmed v "price" p Hp)
             (column_of_trimmed v "quantity" q Hq)),
    (validity_columns v p q Hp Hq).
  pose proof (ge0_trim p Np) as Tp. pose proof (ge0_trim q Nq) as Tq.
  destruct (ge0 p) as [lhs|e]; [|now rewrite Tp].
  destruct Tp as [lhs' [-> Hl]].
  destruct (ge0 q) as [rhs|e]; [|now rewrite Tq].
  destruct Tq as [rhs' [-> Hr]].
  f_equal. unfold valid_rows.
  now rewrite trimmed_select_rows, !is_true_mask_and, Hl, Hr.
Qed.

(** Trimming text and dropping the rows with a missing required value
    can be done in either order: on a table with the two columns in
    which no text column shares its label, both orders return the same
    table. *)
Theorem strip_whitespace_handle_missing_commute
  (h : heap) (r : ref) (df : DataFrame) :
  nth_error h r = Some df ->
  well_formed df = true ->
  mem "price" (columns df) = true ->
  mem "quantity" (columns df) = true ->
  text_labels_unique df = true ->
  exists out,
    table_of (and_then strip_whitespace_from_strings handle_missing_values r h)
    = Return out
    /\ table_of (and_then handle_missing_values strip_whitespace_from_strings r h)
       = Return out.
Proof.
  intros Hr Hwf Hp Hq Hu. pose proof (has_required_mem df Hp Hq) as Hreq.
  exists (trimmed_frame (without_missing df)). split.
  - unfold and_then, bind.
    destruct (table_of_strip_whitespace_from_strings h r df Hr Hwf) as [Hform _].
    rewrite (Hform Hu).
    rewrite (table_of_handle_missing_values (h ++ [trimmed_frame df]) (length h)
               (nth_error_new h [] (trimmed_frame df))).
    change (has_required (trimmed_frame df)) with (has_required df). rewrite Hreq.
    unfold without_missing. now rewrite dropna_mask_trimmed, trimmed_select_rows.
  - rewrite (table_of_after_handle_missing_values _ h r df Hr Hreq).
    assert (Hw : well_formed (without_missing df) = true).
    { unfold without_missing. apply well_formed_select_rows; [exact Hwf|].
      rewrite (dropna_mask_rows df Hwf), length_map. now apply rows_length. }
    destruct (table_of_strip_whitespace_from_strings
                (h ++ [df; without_missing df]) (S (length h)) (without_missing df)
                (nth_error_new2 h df (without_missing df)) Hw) as [Hform _].
    rewrite Hform.
    + unfold table_of. now rewrite nth_error_new.
    + unfold without_missing. now rewrite text_labels_unique_select_rows.
Qed.

Lemma strip_whitespace_handle_missing_commute_witness :
  exists out,
    table_of (and_then strip_whitespace_from_strings handle_missing_values
                0 [sample_clean])
    = Return out
    /\ table_of (and_then handle_missing_values strip_whitespace_from_strings
                   0 [sample_clean])
       = Return out.
Proof.
  apply (strip_whitespace_handle_missing_commute [sample_clean] 0 sample_clean);
    reflexivity.
Defined.

(** Trimming text and dropping the invalid rows can be done in either
    order when neither the price nor the quantity column is a column
    of dtype object that holds a number: on such a table with the two
    columns in which no text column shares its label, both orders have
    the same outcome, the same table or the same TypeError.  (A number
    held in a column of dtype object compares as a number before the
    Text Trimmer and is a text after it.) *)
Theorem strip_whitespace_remove_invalid_commute
  (h : heap) (r : ref) (df : DataFrame) (p q : column) :
  nth_error h r = Some df ->
  well_formed df = true ->
  column_of df "price" = Some p ->
  column_of df "quantity" = Some q ->
  text_labels_unique df = true ->
  has_number p = false ->
  has_number q = false ->
  table_of (and_then strip_whitespace_from_strings remove_invalid_rows r h)
  = table_of (and_then remove_invalid_rows strip_whitespace_from_strings r h).
Proof.
  intros Hr Hwf Hp Hq Hu Np Nq. pose proof (has_required_columns df p q Hp Hq) as Hreq.
  transitivity (match validity df with
                | Return out => Return (trimmed_frame out)
                | Raise e => Raise e
                end).
  - unfold and_then, bind.
    destruct (table_of_strip_whitespace_from_strings h r df Hr Hwf) as [Hform _].
    rewrite (Hform Hu).
    rewrite (table_of_remove_invalid_rows (h ++ [trimmed_frame df]) (length h)
               (nth_error_new h [] (trimmed_frame df))).
    change (has_required (trimmed_frame df)) with (has_required df). rewrite Hreq.
    exact (validity_trimmed df p q Hp Hq Np Nq).
  - destruct (validity df) as [out|e] eqn:Hv.
    + rewrite (table_of_after_remove_invalid_rows _ h r df out Hr Hreq Hv).
      destruct (validity_returns df p q out Hp Hq Hv) as [lhs [rhs [El [Er ->]]]].
      destruct (valid_rows_shape df p q lhs rhs Hwf Hp Hq El Er) as [Hw _].
      destruct (table_of_strip_whitespace_from_strings
                  (h ++ [df; valid_rows lhs rhs df]) (S (length h))
                  (valid_rows lhs rhs df)
                  (nth_error_new2 h df (valid_rows lhs rhs df)) Hw) as [Hform _].
      rewrite Hform.
      * unfold table_of. now rewrite nth_error_new.
      * unfold valid_rows. now rewrite text_labels_unique_select_rows.
    + unfold and_then, bind.
      now rewrite remove_invalid_rows_run, (nth_error_nth h r Hr), Hreq, Hv.
Qed.

Lemma strip_whitespace_remove_invalid_commute_witness :
  table_of (and_then strip_whitespace_from_strings remove_invalid_rows
              0 [sample_clean])
  = table_of (and_then remove_invalid_rows strip_whitespace_from_strings
                0 [sample_clean]).
Proof.
  apply (strip_whitespace_remove_invalid_commute [sample_clean] 0 sample_clean
           (Float64 [ten; S754_nan; minus_three]) (Int64 [2; 1; 4]%Z));
    reflexivity.
Defined.

Example number_objects_do_not_commute :
  let prices :=
    mkDataFrame ["price"; "quantity"] [0; 1; 2]%Z
                [Object [OInt 5; OInt (-1); ONone]; Int64 [1; 1; 1]%Z] in
  table_of (and_then remove_invalid_rows strip_whitespace_from_strings 0 [prices])
  = Return (mkDataFrame ["price"; "quantity"] [0%Z]
              [StringDtype [Some "5"]; Int64 [1%Z]])
  /\ table_of (and_then strip_whitespace_from_strings remove_invalid_rows 0 [prices])
     = Raise TypeError.
Proof. split; reflexivity. Qed.
